(** * The focus-group analysis feedback loop

    A shallow embedding of [fg_analysis_feedback_loop.py]: the shared
    context dictionary, the six tool functions that the agents call, the
    hand-off tables, and the properties of the iteration controller that is
    embedded in [submit_revised_analysis]. *)

From stdpp Require Import gmap strings list fin_maps pretty.

Local Open Scope string_scope.
Local Open Scope Z_scope.

(** ** Python values *)

(** [class DocumentStage(str, Enum)]. *)
Inductive DocumentStage := ANALYSIS | REVIEW | REVISION | FINAL.

(** The [.value] of a member. *)
Definition stage_value (d : DocumentStage) : string :=
  match d with
  | ANALYSIS => "analysis"
  | REVIEW => "review"
  | REVISION => "revision"
  | FINAL => "final"
  end.

(** What a slot of the context dictionary ([dict[str, Any]]) holds in this
    program: [None], booleans, integers (unbounded), strings, members of
    [DocumentStage], lists, and the dictionaries produced by [model_dump()],
    kept as association lists in field order. *)
#[warnings="-register-all"]
Inductive value :=
| VNone
| VBool (b : bool)
| VInt (n : Z)
| VStr (s : string)
| VStage (d : DocumentStage)
| VList (l : list value)
| VDict (d : list (string * value)).

Inductive exn :=
| KeyError (key : string)
| TypeError
| FileNotFoundError (path : string)
| OSError (msg : string).

Abbreviation Ctx := (gmap string value).

(** [bool] is a subclass of [int]: both compare and add as integers. *)
Definition as_num (v : value) : option Z :=
  match v with
  | VBool b => Some (if b then 1 else 0)
  | VInt n => Some n
  | _ => None
  end.

(** [DocumentStage] mixes in [str]: a member compares as its value. *)
Definition as_str (v : value) : option string :=
  match v with
  | VStr s => Some s
  | VStage d => Some (stage_value d)
  | _ => None
  end.

(** Truth value of an object, as [if] and [and] test it. *)
Definition truthy (v : value) : bool :=
  match v with
  | VNone => false
  | VBool b => b
  | VInt n => negb (n =? 0)
  | VStr s => negb (String.eqb s EmptyString)
  | VStage _ => true
  | VList l => match l with [] => false | _ => true end
  | VDict d => match d with [] => false | _ => true end
  end.

Fixpoint assoc {A} (k : string) (l : list (string * A)) : option A :=
  match l with
  | [] => None
  | (k', v) :: l' => if String.eqb k k' then Some v else assoc k l'
  end.

(** [a == b]. *)
Fixpoint py_eq (a b : value) {struct a} : bool :=
  match a, b with
  | VNone, VNone => true
  | VList xs, VList ys =>
      (fix go (xs ys : list value) : bool :=
         match xs, ys with
         | [], [] => true
         | x :: xs', y :: ys' => py_eq x y && go xs' ys'
         | _, _ => false
         end) xs ys
  | VDict xs, VDict ys =>
      Nat.eqb (length xs) (length ys) &&
      (fix go (xs : list (string * value)) : bool :=
         match xs with
         | [] => true
         | (k, v) :: xs' =>
             match assoc k ys with
             | Some v' => py_eq v v'
             | None => false
             end && go xs'
         end) xs
  | _, _ =>
      match as_num a, as_num b with
      | Some m, Some n => m =? n
      | _, _ =>
          match as_str a, as_str b with
          | Some s, Some t => String.eqb s t
          | _, _ => false
          end
      end
  end.

(** [a < b]: numbers by value, strings and lists lexicographically, a
    [TypeError] for every other pair of types. *)
Fixpoint py_lt (a b : value) {struct a} : exn + bool :=
  match a, b with
  | VList xs, VList ys =>
      (fix go (xs ys : list value) : exn + bool :=
         match xs, ys with
         | [], [] => inr false
         | [], _ :: _ => inr true
         | _ :: _, [] => inr false
         | x :: xs', y :: ys' => if py_eq x y then go xs' ys' else py_lt x y
         end) xs ys
  | _, _ =>
      match as_num a, as_num b with
      | Some m, Some n => inr (m <? n)
      | _, _ =>
          match as_str a, as_str b with
          | Some s, Some t => inr (String.ltb s t)
          | _, _ => inl TypeError
          end
      end
  end.

(** [v + 1], the right-hand side of [v += 1]: defined on numbers only (a
    string or a list cannot take an [int] operand). *)
Definition py_add1 (v : value) : exn + Z :=
  match as_num v with
  | Some n => inr (n + 1)
  | None => inl TypeError
  end.

(** ** Execution monad: the dictionary is mutated in place

    A tool function receives the one shared dictionary and writes to it as
    it goes, so whatever it stored before raising stays stored.  A
    computation therefore returns the dictionary together with either the
    exception or the value. *)

Definition Exec (A : Type) : Type := Ctx → Ctx * (exn + A).

Definition ret {A} (a : A) : Exec A := λ c, (c, inr a).

Definition bind {A B} (k : A → Exec B) (m : Exec A) : Exec B :=
  λ c, match m c with
       | (c', inr a) => k a c'
       | (c', inl e) => (c', inl e)
       end.

(** stdpp's monad notations: [x ← m; k] and [m;; k]. *)
#[global] Instance Exec_ret : MRet Exec := @ret.
#[global] Instance Exec_bind : MBind Exec := @bind.

(** [context_variables[key]]. *)
Definition getitem (key : string) : Exec value :=
  λ c, match c !! key with
       | Some v => (c, inr v)
       | None => (c, inl (KeyError key))
       end.

(** [context_variables[key] = v]. *)
Definition setitem (key : string) (v : value) : Exec unit :=
  λ c, (<[key := v]> c, inr tt).

Definition lift {A} (r : exn + A) : Exec A := λ c, (c, r).

(** The dictionary object itself, as in [context_variables=context_variables]. *)
Definition self : Exec Ctx := λ c, (c, inr c).

(** ** Agents and tool results *)

Inductive Agent :=
| ingestion_agent
| drafting_agent
| review_agent
| revision_agent
| finalization_agent
| report_recorder_agent
| user.

(** [SwarmResult(values=..., agent=..., context_variables=...)]; [agent]
    is [None] unless the tool names its successor. *)
Record SwarmResult := {
  values : string;
  agent : option Agent;
  context_variables : Ctx
}.

(** ** The shared context at workflow start *)

Definition shared_context : Ctx :=
  <["error_stage" := VStr EmptyString]> (
  <["error_message" := VStr EmptyString]> (
  <["has_error" := VBool false]> (
  <["final_report" := VDict []]> (
  <["revised_analysis" := VDict []]> (
  <["feedback_collection" := VDict []]> (
  <["analysis_draft" := VDict []]> (
  <["focus_group_objectives" := VStr EmptyString]> (
  <["focus_group_transcripts" := VStr EmptyString]> (
  <["current_stage" := VStage ANALYSIS]> (
  <["iteration_needed" := VBool true]> (
  <["max_iterations" := VInt 3]> (
  <["current_iteration" := VInt 0]> (
  <["loop_started" := VBool false]> ∅))))))))))))).

(** ** The operating system, as the tool functions see it

    Every call into the file system is answered by the environment, which
    may raise instead; the answers are taken as an oracle so that every
    behaviour of the environment is covered. *)
Record OS := {
  read_text : string → exn + string;      (* [open(path, 'r').read()] *)
  getcwd : string;                        (* [os.getcwd()] *)
  path_exists : string → bool;            (* [os.path.exists] *)
  makedirs : string → exn + unit;         (* [os.makedirs] *)
  write_text : string → string → exn + unit (* [open(path, 'w').write(s)] *)
}.

(** [s.endswith('/')]. *)
Fixpoint ends_with_sep (s : string) : bool :=
  match s with
  | EmptyString => false
  | String _ s' => String.eqb s "/" || ends_with_sep s'
  end.

(** [os.path.join(a, b)] on a POSIX system. *)
Definition path_join (a b : string) : string :=
  if String.prefix "/" b then b
  else if String.eqb a EmptyString || ends_with_sep a then a +:+ b
  else a +:+ "/" +:+ b.

(** ** Ingestion *)

Definition read_data (os : OS) : Exec SwarmResult :=
  transcripts ← lift (read_text os "data/transcripts.md");
  setitem "fg_transcripts" (VStr transcripts);;
  objectives ← lift (read_text os "data/objectives.md");
  setitem "fg_objectives" (VStr objectives);;
  setitem "loop_started" (VBool true);;
  setitem "current_stage" (VStr (stage_value ANALYSIS));;
  setitem "current_iteration" (VInt 1);;
  cv ← self;
  mret {| values := "Read transcripts and objectives, and started the analysis feedback loop.";
         agent := None;
         context_variables := cv |}.

(** ** Drafting *)

Module AnalysisDraft.
Record t := { title : string; content : string }.
Definition model_dump (d : t) : value :=
  VDict [("title", VStr (title d)); ("content", VStr (content d))].
End AnalysisDraft.

Definition submit_analysis_draft (title content : string) : Exec SwarmResult :=
  let analysis_draft := {| AnalysisDraft.title := title; AnalysisDraft.content := content |} in
  setitem "analysis_draft" (AnalysisDraft.model_dump analysis_draft);;
  setitem "current_stage" (VStr (stage_value REVIEW));;
  cv ← self;
  mret {| values := "Analysis draft submitted. Moving to review stage.";
         agent := None;
         context_variables := cv |}.

(** ** Review *)

Definition dump_optional {A} (f : A → value) (o : option A) : value :=
  match o with
  | Some a => f a
  | None => VNone
  end.

Definition dump_strings (l : list string) : value := VList (VStr <$> l).

Module FeedbackItem.
Record t := {
  feedback : string;
  severity : string;
  recommendation : option string
}.
Definition model_dump (i : t) : value :=
  VDict [("feedback", VStr (feedback i));
         ("severity", VStr (severity i));
         ("recommendation", dump_optional VStr (recommendation i))].
End FeedbackItem.

Module FeedbackCollection.
Record t := {
  items : list FeedbackItem.t;
  overall_assessment : string;
  priority_issues : list string;
  iteration_needed : bool
}.
Definition model_dump (f : t) : value :=
  VDict [("items", VList (FeedbackItem.model_dump <$> items f));
         ("overall_assessment", VStr (overall_assessment f));
         ("priority_issues", dump_strings (priority_issues f));
         ("iteration_needed", VBool (iteration_needed f))].
End FeedbackCollection.

Definition submit_feedback (items : list FeedbackItem.t) (overall_assessment : string)
    (priority_issues : list string) (iteration_needed : bool) : Exec SwarmResult :=
  let feedback := {| FeedbackCollection.items := items;
                     FeedbackCollection.overall_assessment := overall_assessment;
                     FeedbackCollection.priority_issues := priority_issues;
                     FeedbackCollection.iteration_needed := iteration_needed |} in
  setitem "feedback_collection" (FeedbackCollection.model_dump feedback);;
  setitem "iteration_needed" (VBool (FeedbackCollection.iteration_needed feedback));;
  setitem "current_stage" (VStr (stage_value REVISION));;
  cv ← self;
  mret {| values := "Feedback submitted. Moving to revision stage.";
         agent := None;
         context_variables := cv |}.

(** ** Revision *)

Module RevisedAnalysis.
Record t := {
  title : string;
  content : string;
  changes_made : option (list string)
}.
Definition model_dump (r : t) : value :=
  VDict [("title", VStr (title r));
         ("content", VStr (content r));
         ("changes_made", dump_optional dump_strings (changes_made r))].
End RevisedAnalysis.

(** The test of the [if]:
    [context_variables["iteration_needed"] and
     context_variables["current_iteration"] < context_variables["max_iterations"]].
    [and] reads its right operand only when the left one is true. *)
Definition another_iteration : Exec bool :=
  needed ← getitem "iteration_needed";
  if truthy needed then
    cur ← getitem "current_iteration";
    mx ← getitem "max_iterations";
    lift (py_lt cur mx)
  else mret false.

Definition submit_revised_analysis (title content : string)
    (changes_made : option (list string)) : Exec SwarmResult :=
  let revised := {| RevisedAnalysis.title := title;
                    RevisedAnalysis.content := content;
                    RevisedAnalysis.changes_made := changes_made |} in
  setitem "revised_analysis" (RevisedAnalysis.model_dump revised);;
  again ← another_iteration;
  if again : bool then
    cur ← getitem "current_iteration";
    next ← lift (py_add1 cur);
    setitem "current_iteration" (VInt next);;
    setitem "current_stage" (VStr (stage_value REVIEW));;
    setitem "analysis_draft"
      (VDict [("title", VStr (RevisedAnalysis.title revised));
              ("content", VStr (RevisedAnalysis.content revised))]);;
    (* the f-string reads back the integer stored two statements above *)
    cv ← self;
    mret {| values := "Analysis revised. Starting iteration " +:+ pretty next
                     +:+ " with another review.";
           agent := None;
           context_variables := cv |}
  else
    setitem "current_stage" (VStr (stage_value FINAL));;
    cv ← self;
    mret {| values := "Revisions complete. Moving to document finalization.";
           agent := None;
           context_variables := cv |}.

(** ** Finalization *)

Module FinalAnalysis.
Record t := { title : string; content : string }.
Definition model_dump (d : t) : value :=
  VDict [("title", VStr (title d)); ("content", VStr (content d))].
End FinalAnalysis.

Definition finalize_analysis (title content : string) : Exec SwarmResult :=
  let final := {| FinalAnalysis.title := title; FinalAnalysis.content := content |} in
  setitem "final_analysis" (FinalAnalysis.model_dump final);;
  setitem "iteration_needed" (VBool false);;
  cv ← self;
  mret {| values := "Analysis finalized. Feedback loop complete.";
         agent := Some report_recorder_agent;
         context_variables := cv |}.

(** ** Recording

    [write_report_to_file] is not handed the context: it works on the file
    system only and returns a result with an empty dictionary. *)
Definition write_report_to_file (os : OS) (report filename : string) : exn + SwarmResult :=
  let reports_dir := path_join (getcwd os) "reports" in
  match (if path_exists os reports_dir then inr tt else makedirs os reports_dir) with
  | inl e => inl e
  | inr _ =>
      let filepath := path_join reports_dir filename in
      match write_text os filepath report with
      | inl e => inl e
      | inr _ =>
          inr {| values := "Report written to " +:+ filepath;
                 agent := None;
                 context_variables := ∅ |}
      end
  end.

(** ** Hand-offs registered for each agent *)

(** The conditions used in the [ContextExpression] strings: a variable
    compared with a literal, and conjunctions of those. *)
Inductive ContextExpression :=
| CEq (var : string) (lit : value)
| CAnd (a b : ContextExpression).

(** [AfterWork(agent)] or [AfterWork(AfterWorkOption.REVERT_TO_USER)]. *)
Inductive AfterWork :=
| ToAgent (a : Agent)
| REVERT_TO_USER.

Record HandOffs := {
  on_context : list (Agent * ContextExpression);
  after_work : option AfterWork
}.

(** The [register_hand_off] calls, in the order of their [hand_to] lists. *)
Definition hand_offs (a : Agent) : HandOffs :=
  match a with
  | ingestion_agent =>
      {| on_context :=
           [(drafting_agent,
             CAnd (CEq "loop_started" (VBool true)) (CEq "current_stage" (VStr "analysis")))];
         after_work := None |}
  | drafting_agent =>
      {| on_context := [(review_agent, CEq "current_stage" (VStr "review"))];
         after_work := None |}
  | review_agent =>
      {| on_context := [(revision_agent, CEq "current_stage" (VStr "revision"))];
         after_work := None |}
  | revision_agent =>
      {| on_context := [(finalization_agent, CEq "current_stage" (VStr "final"));
                        (review_agent, CEq "current_stage" (VStr "review"))];
         after_work := None |}
  | finalization_agent =>
      {| on_context := []; after_work := Some (ToAgent report_recorder_agent) |}
  | report_recorder_agent =>
      {| on_context := []; after_work := Some REVERT_TO_USER |}
  | user =>
      {| on_context := []; after_work := None |}
  end.

(** The [after_work] argument of [initiate_swarm_chat]. *)
Definition swarm_after_work : AfterWork := REVERT_TO_USER.

(** Modelled from the spec: the evaluation of a guard, which the framework
    performs and the source only declares.  Section 4.3 makes guards pure
    boolean expressions over context fields (equality, conjunction), and
    section 4.1 makes a read of an absent key fail ([None] here). *)
Fixpoint eval_guard (c : Ctx) (e : ContextExpression) : option bool :=
  match e with
  | CEq var lit => v ← c !! var; Some (py_eq v lit)
  | CAnd a b => x ← eval_guard c a; y ← eval_guard c b; Some (x && y)
  end.

(** Modelled from the spec: first matching guard wins, in declaration order
    (section 4.3). *)
Fixpoint first_match (c : Ctx) (rules : list (Agent * ContextExpression)) : option (option Agent) :=
  match rules with
  | [] => Some None
  | (target, guard) :: rules' =>
      hit ← eval_guard c guard;
      if hit : bool then Some (Some target) else first_match c rules'
  end.

(** Modelled from the spec: the resolution of the next executor, which is
    the framework's and not under the source tree.  Section 4.5: the
    explicit override of the tool result takes precedence over the
    transition rules; section 4.3: otherwise the first matching guard, and
    when none matches the executor's fallback, else the workflow's. *)
Definition next_executor (r : SwarmResult) (rules : HandOffs) (c : Ctx) : option AfterWork :=
  match agent r with
  | Some a => Some (ToAgent a)
  | None =>
      hit ← first_match c (on_context rules);
      match hit with
      | Some a => Some (ToAgent a)
      | None => Some (default swarm_after_work (after_work rules))
      end
  end.

(** ** Runs of the workflow *)

(** One tool call, with its arguments and, for the two tools that touch
    the file system, the environment it ran in. *)
Inductive Call :=
| ReadData (os : OS)
| SubmitAnalysisDraft (title content : string)
| SubmitFeedback (items : list FeedbackItem.t) (overall_assessment : string)
    (priority_issues : list string) (iteration_needed : bool)
| SubmitRevisedAnalysis (title content : string) (changes_made : option (list string))
| FinalizeAnalysis (title content : string)
| WriteReportToFile (os : OS) (report filename : string).

Definition call (op : Call) : Exec SwarmResult :=
  match op with
  | ReadData os => read_data os
  | SubmitAnalysisDraft title content => submit_analysis_draft title content
  | SubmitFeedback items overall_assessment priority_issues iteration_needed =>
      submit_feedback items overall_assessment priority_issues iteration_needed
  | SubmitRevisedAnalysis title content changes_made =>
      submit_revised_analysis title content changes_made
  | FinalizeAnalysis title content => finalize_analysis title content
  | WriteReportToFile os report filename => lift (write_report_to_file os report filename)
  end.

(** The dictionary after each call of a sequence, the starting one first.
    A call that raises leaves the dictionary as it had mutated it, and the
    sequence goes on from there: a run that stops at the first exception is
    a prefix of such a sequence. *)
Fixpoint trace (ops : list Call) (c : Ctx) : list Ctx :=
  c :: match ops with
       | [] => []
       | op :: ops' => trace ops' (call op c).1
       end.

(** The dictionary at the end of the sequence. *)
Definition run (ops : list Call) (c : Ctx) : Ctx :=
  foldl (λ c op, (call op c).1) c ops.

Definition is_read_data (op : Call) : bool :=
  match op with
  | ReadData _ => true
  | _ => false
  end.

Definition is_revision (op : Call) : bool :=
  match op with
  | SubmitRevisedAnalysis _ _ _ => true
  | _ => false
  end.

(** The test of the guards on [current_stage]: [${current_stage} == 'name']. *)
Definition stage_is (c : Ctx) (name : string) : bool :=
  match c !! "current_stage" with
  | Some v => py_eq v (VStr name)
  | None => false
  end.

(** Which edge out of Revision a submission enables, read off the
    dictionary it leaves behind. *)
Inductive Edge := LoopEdge | FinalEdge | NoEdge.

Definition edge_of (op : Call) (c : Ctx) : Edge :=
  match call op c with
  | (c', inr _) =>
      if stage_is c' "review" then LoopEdge
      else if stage_is c' "final" then FinalEdge
      else NoEdge
  | (_, inl _) => NoEdge
  end.

(** The edges taken by the Revision submissions of a run, in order. *)
Fixpoint revision_edges (ops : list Call) (c : Ctx) : list Edge :=
  match ops with
  | [] => []
  | op :: ops' =>
      (if is_revision op then [edge_of op c] else []) ++ revision_edges ops' (call op c).1
  end.

Definition is_loop_edge (e : Edge) : bool :=
  match e with
  | LoopEdge => true
  | _ => false
  end.

(** ** Predicates on the iteration state *)

Definition iteration_is (c : Ctx) (i : Z) : Prop :=
  c !! "current_iteration" = Some (VInt i).

Definition max_iterations_is (c : Ctx) (m : Z) : Prop :=
  c !! "max_iterations" = Some (VInt m).

Definition iteration_needed_is (c : Ctx) (b : bool) : Prop :=
  c !! "iteration_needed" = Some (VBool b).

(** [current_iteration] never goes down from one dictionary of the
    sequence to the next. *)
Definition non_decreasing (t : list Ctx) : Prop :=
  ∀ (k : nat) c c' i i',
    t !! k = Some c → t !! S k = Some c' →
    iteration_is c i → iteration_is c' i' → i ≤ i'.

(** ** Further definitions used by the statements *)



Definition revised_dump (title content : string) (changes_made : option (list string)) : value :=
  RevisedAnalysis.model_dump
    {| RevisedAnalysis.title := title;
       RevisedAnalysis.content := content;
       RevisedAnalysis.changes_made := changes_made |}.

Definition title_content (title content : string) : value :=
  VDict [("title", VStr title); ("content", VStr content)].


(** How many times the loop edge Revision → Review fires in a run. *)
Definition loop_edges_fired (ops : list Call) (c : Ctx) : nat :=
  length (List.filter is_loop_edge (revision_edges ops c)).

(** The three error fields still hold what [shared_context] gave them. *)
Definition error_fields_unset (c : Ctx) : Prop :=
  c !! "has_error" = Some (VBool false) ∧
  c !! "error_message" = Some (VStr EmptyString) ∧
  c !! "error_stage" = Some (VStr EmptyString).

(** The three data keys of [shared_context] that no tool function names. *)
Definition unused_keys_unset (c : Ctx) : Prop :=
  c !! "focus_group_transcripts" = Some (VStr EmptyString) ∧
  c !! "focus_group_objectives" = Some (VStr EmptyString) ∧
  c !! "final_report" = Some (VDict []).

(** The keys some tool function assigns to. *)
Definition written_keys : list string :=
  ["fg_transcripts"; "fg_objectives"; "loop_started"; "current_stage";
   "current_iteration"; "analysis_draft"; "feedback_collection";
   "iteration_needed"; "revised_analysis"; "final_analysis"].

(** The reading of the Review contract under which asking for another
    iteration takes at least one feedback item: whenever [submit_feedback]
    accepts a submission with [iteration_needed] true, its items are not
    empty. *)
Definition review_requires_items : Prop :=
  ∀ items overall_assessment priority_issues (c c' : Ctx) r,
    submit_feedback items overall_assessment priority_issues true c = (c', inr r) →
    items ≠ [].

(** The reading of the error contract under which a failing call never
    leaves the three error fields at their defaults. *)
Definition failures_set_error_fields : Prop :=
  ∀ op (c c' : Ctx) e,
    error_fields_unset c → call op c = (c', inl e) → ¬ error_fields_unset c'.

(** ** Two environments to run the functions in *)

(** A working directory with both data files present and writable. *)
Definition os_with_data (transcripts objectives : string) : OS :=
  {| read_text := λ path,
       if String.eqb path "data/transcripts.md" then inr transcripts
       else if String.eqb path "data/objectives.md" then inr objectives
       else inl (FileNotFoundError path);
     getcwd := "/srv/fg";
     path_exists := λ _, false;
     makedirs := λ _, inr tt;
     write_text := λ _ _, inr tt |}.

(** A working directory without the [data] folder. *)
Definition os_without_data : OS :=
  {| read_text := λ path, inl (FileNotFoundError path);
     getcwd := "/srv/fg";
     path_exists := λ _, false;
     makedirs := λ _, inr tt;
     write_text := λ _ _, inr tt |}.

(** Scenario B of the specification: with [max_iterations = 3], the
    reviews ask for another iteration twice and then no more. *)
Definition scenario_B_calls : list Call :=
  [ReadData (os_with_data "transcripts" "objectives");
   SubmitAnalysisDraft "Findings" "First draft";
   SubmitFeedback [] "Thin on evidence" ["quotes"] true;
   SubmitRevisedAnalysis "Findings" "Second draft" None;
   SubmitFeedback [] "Better" [] true;
   SubmitRevisedAnalysis "Findings" "Third draft" None;
   SubmitFeedback [] "Good" [] false;
   SubmitRevisedAnalysis "Findings" "Fourth draft" None].

(** The message of a result, when there is one. *)
Definition message (r : exn + SwarmResult) : option string :=
  match r with
  | inr r => Some (values r)
  | inl _ => None
  end.

(** ** What each tool function assigns to *)

(** The keys named on the left of an assignment in each tool function. *)
Definition write_set (op : Call) : list string :=
  match op with
  | ReadData _ =>
      ["fg_transcripts"; "fg_objectives"; "loop_started"; "current_stage";
       "current_iteration"]
  | SubmitAnalysisDraft _ _ => ["analysis_draft"; "current_stage"]
  | SubmitFeedback _ _ _ _ => ["feedback_collection"; "iteration_needed"; "current_stage"]
  | SubmitRevisedAnalysis _ _ _ =>
      ["revised_analysis"; "current_iteration"; "current_stage"; "analysis_draft"]
  | FinalizeAnalysis _ _ => ["final_analysis"; "iteration_needed"]
  | WriteReportToFile _ _ _ => []
  end.


Definition is_finalize (op : Call) : bool :=
  match op with
  | FinalizeAnalysis _ _ => true
  | _ => false
  end.


(** ** The summary printed by [run_feedback_loop_pattern]

    The part of [run_feedback_loop_pattern] that follows
    [initiate_swarm_chat]: it takes the final context and the chat history
    and prints.  A printed line is kept as the pieces of its f-string: the
    literal text, and the values that [str()] is applied to. *)

Inductive piece :=
| Text (s : string)
| Shown (v : value).

Abbreviation line := (list piece).

(** What the summary can raise: the exceptions of the operators above, and
    an [AttributeError] for a method that the object does not have. *)
Inductive raised :=
| Exn (e : exn)
| AttributeError (attr : string).

(** Printing accumulates lines; an exception ends it and keeps what was
    printed before. *)
Definition Print (A : Type) : Type := list line * (raised + A).

Definition print_ret {A} (a : A) : Print A := ([], inr a).

Definition print_bind {A B} (k : A → Print B) (m : Print A) : Print B :=
  match m with
  | (out, inr a) => (app out (k a).1, (k a).2)
  | (out, inl e) => (out, inl e)
  end.

#[global] Instance Print_ret : MRet Print := @print_ret.
#[global] Instance Print_bind : MBind Print := @print_bind.

(** [print(...)]. *)
Definition print (l : line) : Print unit := ([l], inr tt).

Definition print_lift {A} (r : exn + A) : Print A :=
  match r with
  | inr a => ([], inr a)
  | inl e => ([], inl (Exn e))
  end.

(** [for x in l: body(x)]. *)
Fixpoint for_each {A} (l : list A) (body : A → Print unit) : Print unit :=
  match l with
  | [] => mret tt
  | x :: l' => body x;; for_each l' body
  end.

(** [d.get(key)] on the context: [None] when the key is absent. *)
Definition ctx_get (key : string) (c : Ctx) : value := default VNone (c !! key).

(** [key in d] on the context. *)
Definition ctx_has (key : string) (c : Ctx) : bool :=
  match c !! key with
  | Some _ => true
  | None => false
  end.

(** [v.get(key, dflt)]: only dictionaries have the method. *)
Definition value_get (v : value) (key : string) (dflt : value) : Print value :=
  match v with
  | VDict d => mret (default dflt (assoc key d))
  | _ => ([], inl (AttributeError "get"))
  end.

Fixpoint characters (s : string) : list value :=
  match s with
  | EmptyString => []
  | String a s' => VStr (String a EmptyString) :: characters s'
  end.

(** [iter(v)], as [for] takes it: the items of a list, the keys of a
    dictionary, the characters of a string (strings are byte strings here,
    which is exact for ASCII text); nothing else is iterable. *)
Definition py_iter (v : value) : exn + list value :=
  match v with
  | VList l => inr l
  | VDict d => inr (VStr <$> d.*1)
  | VStr s => inr (characters s)
  | VStage d => inr (characters (stage_value d))
  | _ => inl TypeError
  end.

Definition newline : string := String (Ascii.ascii_of_nat 10) EmptyString.

(** A header as the source writes it, between two line feeds. *)
Definition header (title : string) : line :=
  [Text (newline +:+ "===== " +:+ title +:+ " =====" +:+ newline)].

(** ['✅ Completed' if present else '❌ Not reached']. *)
Definition mark (present : bool) : string :=
  if present then "✅ Completed" else "❌ Not reached".

(** The body of the loop over the iterations. *)
Definition iteration_lines (final_context : Ctx) (i : Z) : Print unit :=
  if i =? 1 then
    print [Text "Iteration "; Shown (VInt i); Text ":"];;
    print [Text "  Analysis: "; Text (mark (ctx_has "final_analysis" final_context))];;
    print [Text "  Review: "; Text (mark (ctx_has "feedback_collection" final_context))];;
    print [Text "  Revision: "; Text (mark (ctx_has "revised_analysis" final_context))]
  else
    print [Text "Iteration "; Shown (VInt i); Text ":"];;
    print [Text "  Review: "; Text (mark (ctx_has "feedback_collection" final_context))];;
    print [Text "  Revision: "; Text (mark (ctx_has "revised_analysis" final_context))].

(** The body of the loop over the chat history. *)
Definition speaker_line (message : Ctx) : Print unit :=
  match message !! "name" with
  | Some name =>
      if negb (py_eq name (VStr "_Swarm_Tool_Executor")) then print [Shown name]
      else mret tt
  | None => mret tt
  end.

Definition summary (final_context : Ctx) (chat_history : list Ctx) : Print unit :=
  if truthy (ctx_get "final_analysis" final_context) then
    let final_analysis := ctx_get "final_analysis" final_context in
    print [Text "Analysis completed successfully!"];;
    print (header "ANALYSIS SUMMARY");;
    title ← value_get final_analysis "title" VNone;
    print [Text "Title: "; Shown title];;
    word_count ← value_get final_analysis "word_count" VNone;
    print [Text "Word Count: "; Shown word_count];;
    print [Text "Iterations: "; Shown (ctx_get "current_iteration" final_context)];;
    print (header "FEEDBACK LOOP PROGRESSION");;
    stop ← print_lift (py_add1 (ctx_get "current_iteration" final_context));
    for_each (seqZ 1 (stop - 1)) (iteration_lines final_context);;
    print [Text "Finalization: "; Text (mark (ctx_has "final_analysis" final_context))];;
    print (header "REVISION HISTORY");;
    history ← value_get final_analysis "revision_history" (VList []);
    items ← print_lift (py_iter history);
    for_each items (λ history_item, print [Text "- "; Shown history_item]);;
    print (header "FINAL ANALYSIS");;
    content ← value_get final_analysis "content" (VStr EmptyString);
    print [Shown content];;
    print [Text (newline +:+ newline +:+ "===== SPEAKER ORDER =====" +:+ newline)];;
    for_each chat_history speaker_line
  else
    print [Text "Document creation did not complete successfully."];;
    if truthy (ctx_get "has_error" final_context) then
      print [Text "Error during "; Shown (ctx_get "error_stage" final_context);
             Text " stage: "; Shown (ctx_get "error_message" final_context)]
    else mret tt.

(** ** Further definitions for the properties of runs, reports and summaries *)

(** A working directory where only the transcripts can be read. *)
Definition os_without_objectives (transcripts : string) : OS :=
  {| read_text := λ path,
       if String.eqb path "data/transcripts.md" then inr transcripts
       else inl (FileNotFoundError path);
     getcwd := "/srv/fg";
     path_exists := λ _, false;
     makedirs := λ _, inr tt;
     write_text := λ _ _, inr tt |}.

(** A Review submission that asks for another iteration. *)
Definition asks_again (op : Call) : bool :=
  match op with
  | SubmitFeedback _ _ _ iteration_needed => iteration_needed
  | _ => false
  end.


(** The directory the reports go to: [os.path.join(os.getcwd(), "reports")]. *)
Definition reports_dir (os : OS) : string := path_join (getcwd os) "reports".

(** The directory step of [write_report_to_file]: [makedirs] is called only
    when the directory does not exist. *)
Definition ensure_reports_dir (os : OS) : exn + unit :=
  if path_exists os (reports_dir os) then inr tt else makedirs os (reports_dir os).

(** An environment in which every call succeeds, used with an absolute file name. *)
Definition os_with_reports_dir : OS :=
  {| read_text := λ path, inl (FileNotFoundError path);
     getcwd := "/srv/fg/";
     path_exists := λ _, true;
     makedirs := λ _, inl (OSError "exists");
     write_text := λ _ _, inr tt |}.

(** The line that opens the block of an iteration. *)
Definition is_iteration_header (l : line) : bool :=
  match l with
  | Text s :: _ => String.eqb s "Iteration "
  | _ => false
  end.

(** The agent whose [functions] list holds the tool function of a call. *)
Definition caller (op : Call) : Agent :=
  match op with
  | ReadData _ => ingestion_agent
  | SubmitAnalysisDraft _ _ => drafting_agent
  | SubmitFeedback _ _ _ _ => review_agent
  | SubmitRevisedAnalysis _ _ _ => revision_agent
  | FinalizeAnalysis _ _ => finalization_agent
  | WriteReportToFile _ _ _ => report_recorder_agent
  end.

(** ** Tactics *)

(** Unfolds the monad down to the dictionary operations. *)
Ltac exec :=
  unfold mbind, mret, Exec_bind, Exec_ret, bind, ret, setitem, getitem, lift, self; simpl.

(** Picks the returned [SwarmResult] as the witness of a goal of the shape
    [∃ r, (c', inr R) = (context_variables r, inr r) ∧ _]. *)
Ltac returned :=
  simpl;
  match goal with
  | |- ∃ r, (_, inr ?R) = _ ∧ _ => exists R; split; [reflexivity|]; simpl
  end.

(** Proves that a literal key is none of [written_keys]. *)
Ltac not_written :=
  unfold written_keys;
  repeat (apply not_elem_of_cons; split; [done|]); apply not_elem_of_nil.


Ltac not_in_list :=
  repeat (apply not_elem_of_cons; split; [done|]); apply not_elem_of_nil.

Ltac map_lookups :=
  apply map_eq; intros ?; rewrite !lookup_insert; repeat case_decide; congruence.

(** ** Equations of the tool functions *)

Lemma read_data_unfold os c :
  read_data os c =
    match read_text os "data/transcripts.md" with
    | inl e => (c, inl e)
    | inr t =>
        let c1 := <["fg_transcripts" := VStr t]> c in
        match read_text os "data/objectives.md" with
        | inl e => (c1, inl e)
        | inr o =>
            let c' := <["current_iteration" := VInt 1]> (
                      <["current_stage" := VStr "analysis"]> (
                      <["loop_started" := VBool true]> (
                      <["fg_objectives" := VStr o]> c1))) in
            (c', inr {| values := "Read transcripts and objectives, and started the analysis feedback loop.";
                        agent := None;
                        context_variables := c' |})
        end
    end.
Proof.
  unfold read_data. exec.
  destruct (read_text os "data/transcripts.md"); [done|].
  by destruct (read_text os "data/objectives.md").
Qed.

Lemma another_iteration_typed c b i m :
  iteration_needed_is c b → iteration_is c i → max_iterations_is c m →
  another_iteration c = (c, inr (b && (i <? m))).
Proof.
  unfold iteration_needed_is, iteration_is, max_iterations_is, another_iteration.
  intros Hb Hi Hm. exec. rewrite Hb. simpl. destruct b; simpl; [|done].
  by rewrite Hi, Hm.
Qed.

Lemma another_iteration_false c :
  iteration_needed_is c false → another_iteration c = (c, inr false).
Proof.
  unfold iteration_needed_is, another_iteration. intros Hb. exec. by rewrite Hb.
Qed.


Lemma exec_bind_inr {A B} (m : Exec A) (k : A → Exec B) c c' a :
  m c = (c', inr a) → (m ≫= k) c = k a c'.
Proof. unfold mbind, Exec_bind, bind. by intros ->. Qed.

Lemma setitem_then {B} key v (k : unit → Exec B) c :
  (setitem key v ≫= k) c = k tt (<[key := v]> c).
Proof. done. Qed.

Lemma getitem_inr key c v : c !! key = Some v → getitem key c = (c, inr v).
Proof. unfold getitem. by intros ->. Qed.

Lemma submit_revised_analysis_loop title content changes_made c i m :
  iteration_needed_is c true → iteration_is c i → max_iterations_is c m → i < m →
  let c' := <["analysis_draft" := title_content title content]> (
            <["current_stage" := VStr "review"]> (
            <["current_iteration" := VInt (i + 1)]> (
            <["revised_analysis" := revised_dump title content changes_made]> c))) in
  submit_revised_analysis title content changes_made c =
    (c', inr {| values := "Analysis revised. Starting iteration " +:+ pretty (i + 1)
                          +:+ " with another review.";
                agent := None;
                context_variables := c' |}).
Proof.
  intros Hb Hi Hm Hlt c'. unfold submit_revised_analysis.
  rewrite setitem_then.
  set (c1 := <["revised_analysis" := _]> c).
  assert (iteration_needed_is c1 true) as Hb1 by (unfold iteration_needed_is, c1; by simplify_map_eq).
  assert (iteration_is c1 i) as Hi1 by (unfold iteration_is, c1; by simplify_map_eq).
  assert (max_iterations_is c1 m) as Hm1 by (unfold max_iterations_is, c1; by simplify_map_eq).
  rewrite (exec_bind_inr _ _ _ _ _ (another_iteration_typed _ _ _ _ Hb1 Hi1 Hm1)).
  assert ((i <? m) = true) as -> by lia. simpl.
  rewrite (exec_bind_inr _ _ _ _ _ (getitem_inr _ _ _ Hi1)).
  done.
Qed.

Lemma submit_revised_analysis_final title content changes_made c b i m :
  iteration_needed_is c b → iteration_is c i → max_iterations_is c m →
  ¬ (b = true ∧ i < m) →
  let c' := <["current_stage" := VStr "final"]> (
            <["revised_analysis" := revised_dump title content changes_made]> c) in
  submit_revised_analysis title content changes_made c =
    (c', inr {| values := "Revisions complete. Moving to document finalization.";
                agent := None;
                context_variables := c' |}).
Proof.
  intros Hb Hi Hm Hno c'. unfold submit_revised_analysis.
  rewrite setitem_then.
  set (c1 := <["revised_analysis" := _]> c).
  assert (iteration_needed_is c1 b) as Hb1 by (unfold iteration_needed_is, c1; by simplify_map_eq).
  assert (iteration_is c1 i) as Hi1 by (unfold iteration_is, c1; by simplify_map_eq).
  assert (max_iterations_is c1 m) as Hm1 by (unfold max_iterations_is, c1; by simplify_map_eq).
  rewrite (exec_bind_inr _ _ _ _ _ (another_iteration_typed _ _ _ _ Hb1 Hi1 Hm1)).
  assert (b && (i <? m) = false) as ->.
  { destruct b; simpl; [|done]. apply Z.ltb_ge. lia. }
  done.
Qed.

Lemma submit_revised_analysis_not_needed title content changes_made c :
  iteration_needed_is c false →
  let c' := <["current_stage" := VStr "final"]> (
            <["revised_analysis" := revised_dump title content changes_made]> c) in
  submit_revised_analysis title content changes_made c =
    (c', inr {| values := "Revisions complete. Moving to document finalization.";
                agent := None;
                context_variables := c' |}).
Proof.
  intros Hb c'. unfold submit_revised_analysis.
  rewrite setitem_then.
  set (c1 := <["revised_analysis" := _]> c).
  assert (iteration_needed_is c1 false) as Hb1
    by (unfold iteration_needed_is, c1; by simplify_map_eq).
  by rewrite (exec_bind_inr _ _ _ _ _ (another_iteration_false _ Hb1)).
Qed.

(** ** Keys that a call leaves alone *)

Lemma another_iteration_ctx c : (another_iteration c).1 = c.
Proof.
  unfold another_iteration. exec.
  destruct (c !! "iteration_needed") as [v|]; [|done]. simpl.
  destruct (truthy v); [|done].
  destruct (c !! "current_iteration") as [x|]; [|done]. simpl.
  destruct (c !! "max_iterations") as [y|]; [|done]. simpl.
  by destruct (py_lt x y).
Qed.

Lemma call_frame op c key :
  key ∉ written_keys → (call op c).1 !! key = c !! key.
Proof.
  unfold written_keys. intros Hkey.
  repeat (apply not_elem_of_cons in Hkey as [? Hkey]).
  destruct op; simpl.
  - rewrite read_data_unfold.
    destruct (read_text os "data/transcripts.md"); [done|].
    destruct (read_text os "data/objectives.md"); simpl; by simplify_map_eq.
  - unfold submit_analysis_draft. exec. by simplify_map_eq.
  - unfold submit_feedback. exec. by simplify_map_eq.
  - unfold submit_revised_analysis. rewrite setitem_then.
    set (c1 := <["revised_analysis" := _]> c).
    assert (c1 !! key = c !! key) as <- by (unfold c1; by simplify_map_eq).
    generalize (another_iteration_ctx c1).
    unfold mbind at 1, Exec_bind, bind at 1.
    destruct (another_iteration c1) as [c2 [e|[|]]]; simpl; intros ->; [done| |].
    + exec. destruct (c1 !! "current_iteration") as [x|]; [|done]. simpl.
      destruct (py_add1 x); simpl; [done|]. by simplify_map_eq.
    + exec. by simplify_map_eq.
  - unfold finalize_analysis. exec. by simplify_map_eq.
  - done.
Qed.

(** A comparison that raises, raises a [TypeError]. *)
Lemma py_lt_raises : ∀ (a b : value) (e : exn), py_lt a b = inl e → e = TypeError.
Proof.
  fix IH 1. intros a b e.
  destruct a, b; simpl; try (intros; by simplify_eq).
  revert l l0.
  refine (fix go (xs ys : list value) {struct xs} := _).
  destruct xs as [|x xs], ys as [|y ys]; try done.
  destruct (py_eq x y); [apply go | apply IH].
Qed.

(** Over an arbitrary dictionary a Revision submission either returns,
    with the stage set to ['review'] or to ['final'], or raises a
    [KeyError] or a [TypeError] from its test or its increment, before it
    has assigned to the stage. *)
Lemma submit_revised_analysis_cases title content changes_made (c : Ctx) :
  match submit_revised_analysis title content changes_made c with
  | (c', inr r) =>
      context_variables r = c' ∧
      (c' !! "current_stage" = Some (VStr "review") ∨
       c' !! "current_stage" = Some (VStr "final"))
  | (c', inl e) =>
      c' !! "current_stage" = c !! "current_stage" ∧
      (e = TypeError ∨ ∃ key, e = KeyError key)
  end.
Proof.
  unfold submit_revised_analysis. rewrite setitem_then.
  set (c1 := <["revised_analysis" := _]> c).
  assert (c1 !! "current_stage" = c !! "current_stage") as <-
    by (unfold c1; by simplify_map_eq).
  unfold mbind at 1, Exec_bind, bind at 1.
  unfold another_iteration. exec.
  destruct (c1 !! "iteration_needed") as [v|]; simpl; [|by eauto].
  destruct (truthy v); simpl; [|by simplify_map_eq; auto].
  destruct (c1 !! "current_iteration") as [x|] eqn:Hx; simpl; [|by eauto].
  destruct (c1 !! "max_iterations") as [y|]; simpl; [|by eauto].
  destruct (py_lt x y) as [e|[|]] eqn:Hxy; simpl.
  - split; [done|]. left. by eapply py_lt_raises.
  - rewrite Hx. simpl. unfold py_add1.
    destruct (as_num x); simpl; [|by auto]. by simplify_map_eq; auto.
  - by simplify_map_eq; auto.
Qed.

(** ** One call and the iteration state *)

Lemma stage_is_review c : c !! "current_stage" = Some (VStr "review") →
  stage_is c "review" = true ∧ stage_is c "final" = false.
Proof. unfold stage_is. by intros ->. Qed.

Lemma stage_is_final c : c !! "current_stage" = Some (VStr "final") →
  stage_is c "final" = true ∧ stage_is c "review" = false.
Proof. unfold stage_is. by intros ->. Qed.

Lemma edge_of_loop title content changes_made c i m :
  iteration_needed_is c true → iteration_is c i → max_iterations_is c m → i < m →
  edge_of (SubmitRevisedAnalysis title content changes_made) c = LoopEdge.
Proof.
  intros Hb Hi Hm Hlt. unfold edge_of. simpl.
  rewrite (submit_revised_analysis_loop _ _ _ _ _ _ Hb Hi Hm Hlt). simpl.
  unfold stage_is. by simplify_map_eq.
Qed.

Lemma edge_of_final title content changes_made c b i m :
  iteration_needed_is c b → iteration_is c i → max_iterations_is c m →
  ¬ (b = true ∧ i < m) →
  edge_of (SubmitRevisedAnalysis title content changes_made) c = FinalEdge.
Proof.
  intros Hb Hi Hm Hno. unfold edge_of. simpl.
  rewrite (submit_revised_analysis_final _ _ _ _ _ _ _ Hb Hi Hm Hno). simpl.
  unfold stage_is. by simplify_map_eq.
Qed.

(** What one call does to the iteration state: [max_iterations] stays,
    [iteration_needed] stays a boolean, and [current_iteration] is reset
    by [read_data], advanced by one on the loop edge, kept otherwise. *)
Lemma call_iteration_state op c b i m :
  iteration_needed_is c b → iteration_is c i → max_iterations_is c m →
  max_iterations_is (call op c).1 m ∧
  ∃ b' i', iteration_needed_is (call op c).1 b' ∧ iteration_is (call op c).1 i' ∧
    match op with
    | ReadData _ => i' = i ∨ i' = 1
    | SubmitRevisedAnalysis _ _ _ =>
        (b = true ∧ i < m ∧ i' = i + 1 ∧ edge_of op c = LoopEdge) ∨
        (¬ (b = true ∧ i < m) ∧ i' = i ∧ edge_of op c = FinalEdge)
    | _ => i' = i
    end.
Proof.
  intros Hb Hi Hm.
  assert (Hb' := Hb). assert (Hi' := Hi). assert (Hm' := Hm).
  unfold iteration_needed_is, iteration_is, max_iterations_is in *.
  destruct op; simpl.
  - rewrite read_data_unfold.
    destruct (read_text os "data/transcripts.md"); simpl.
    { split; [done|]. exists b, i. auto. }
    destruct (read_text os "data/objectives.md"); simpl.
    + split; [by simplify_map_eq|]. exists b, i. simplify_map_eq. auto.
    + split; [by simplify_map_eq|]. exists b, 1. simplify_map_eq. auto.
  - unfold submit_analysis_draft. exec.
    split; [by simplify_map_eq|]. exists b, i. by simplify_map_eq.
  - unfold submit_feedback. exec.
    split; [by simplify_map_eq|]. exists iteration_needed, i. by simplify_map_eq.
  - destruct (decide (b = true ∧ i < m)) as [[-> Hlt]|Hno].
    + rewrite (submit_revised_analysis_loop _ _ _ _ _ _ Hb' Hi' Hm' Hlt). simpl.
      split; [by simplify_map_eq|]. exists true, (i + 1).
      split; [by simplify_map_eq|]. split; [by simplify_map_eq|].
      left. repeat split; try done. by eapply edge_of_loop.
    + rewrite (submit_revised_analysis_final _ _ _ _ _ _ _ Hb' Hi' Hm' Hno). simpl.
      split; [by simplify_map_eq|]. exists b, i.
      split; [by simplify_map_eq|]. split; [by simplify_map_eq|].
      right. repeat split; try done. by eapply edge_of_final.
  - unfold finalize_analysis. exec.
    split; [by simplify_map_eq|]. exists false, i. by simplify_map_eq.
  - unfold lift. simpl. split; [done|]. exists b, i. auto.
Qed.

(** ** Runs *)

Lemma trace_head ops c : trace ops c !! 0%nat = Some c.
Proof. by destruct ops. Qed.

Lemma trace_bounded ops : ∀ c b i m,
  iteration_needed_is c b → iteration_is c i → max_iterations_is c m →
  1 ≤ m → i ≤ m →
  Forall (λ c', ∃ b' i', iteration_needed_is c' b' ∧ iteration_is c' i' ∧
                         max_iterations_is c' m ∧ i' ≤ m) (trace ops c).
Proof.
  induction ops as [|op ops IH]; intros c b i m Hb Hi Hm H1 Hle; simpl.
  - repeat constructor. eauto 8.
  - constructor; [eauto 8|].
    destruct (call_iteration_state op c b i m Hb Hi Hm) as (Hm' & b' & i' & Hb' & Hi' & Hop).
    eapply IH; eauto.
    destruct op; lia.
Qed.

Lemma trace_non_decreasing ops : ∀ c b i m,
  iteration_needed_is c b → iteration_is c i → max_iterations_is c m →
  Forall (λ op, is_read_data op = false) ops →
  non_decreasing (trace ops c).
Proof.
  induction ops as [|op ops IH]; intros c b i m Hb Hi Hm Hops; simpl.
  - intros [|k] ?????; simpl; done.
  - apply Forall_cons in Hops as [Hop Hops].
    destruct (call_iteration_state op c b i m Hb Hi Hm) as (Hm' & b' & i' & Hb' & Hi' & Hrel).
    intros [|k] x y ix iy Hx Hy Hix Hiy; simpl in Hx, Hy.
    + rewrite trace_head in Hy. simplify_eq.
      unfold iteration_is in *. simplify_eq.
      destruct op; try done; lia.
    + by eapply (IH _ _ _ _ Hb' Hi' Hm' Hops k).
Qed.

(** ** The Revision decision point *)


(** C1. A Revision submission made with [iteration_needed] true and
    [current_iteration < max_iterations] returns normally, adds one to
    [current_iteration], overwrites [analysis_draft] with the title and
    content just submitted and sets the stage to ['review']; made in any
    other iteration state it returns normally and sets the stage to
    ['final'].  Either way the submission is stored under
    [revised_analysis]. *)
Theorem C1_revision_decision title content changes_made c b i m :
  iteration_needed_is c b → iteration_is c i → max_iterations_is c m →
  ∃ r, submit_revised_analysis title content changes_made c = (context_variables r, inr r) ∧
    context_variables r !! "revised_analysis" =
      Some (RevisedAnalysis.model_dump
              {| RevisedAnalysis.title := title;
                 RevisedAnalysis.content := content;
                 RevisedAnalysis.changes_made := changes_made |}) ∧
    (b = true ∧ i < m →
       context_variables r !! "current_iteration" = Some (VInt (i + 1)) ∧
       context_variables r !! "analysis_draft" =
         Some (VDict [("title", VStr title); ("content", VStr content)]) ∧
       context_variables r !! "current_stage" = Some (VStr "review")) ∧
    (¬ (b = true ∧ i < m) →
       context_variables r !! "current_stage" = Some (VStr "final")).
Proof.
  intros Hb Hi Hm.
  destruct (decide (b = true ∧ i < m)) as [[-> Hlt]|Hno].
  - rewrite (submit_revised_analysis_loop _ _ _ _ _ _ Hb Hi Hm Hlt). returned.
    split; [by simplify_map_eq|]. split; [|intros Hno; by destruct Hno].
    intros _. by simplify_map_eq.
  - rewrite (submit_revised_analysis_final _ _ _ _ _ _ _ Hb Hi Hm Hno). returned.
    split; [by simplify_map_eq|]. split; [intros Hyes; by destruct Hno|].
    intros _. by simplify_map_eq.
Qed.

Lemma C1_revision_decision_witness :
  let c := <["current_iteration" := VInt 1]> shared_context in
  (iteration_needed_is c true ∧ iteration_is c 1 ∧ max_iterations_is c 3) ∧
  ∃ r, submit_revised_analysis "Findings" "Second draft" (Some ["tightened the summary"]) c =
         (context_variables r, inr r) ∧
    context_variables r !! "revised_analysis" =
      Some (RevisedAnalysis.model_dump
              {| RevisedAnalysis.title := "Findings";
                 RevisedAnalysis.content := "Second draft";
                 RevisedAnalysis.changes_made := Some ["tightened the summary"] |}) ∧
    (true = true ∧ 1 < 3 →
       context_variables r !! "current_iteration" = Some (VInt (1 + 1)) ∧
       context_variables r !! "analysis_draft" =
         Some (VDict [("title", VStr "Findings"); ("content", VStr "Second draft")]) ∧
       context_variables r !! "current_stage" = Some (VStr "review")) ∧
    (¬ (true = true ∧ 1 < 3) →
       context_variables r !! "current_stage" = Some (VStr "final")).
Proof.
  intros c. split; [repeat split; reflexivity|].
  apply (C1_revision_decision "Findings" "Second draft" (Some ["tightened the summary"])
           c true 1 3); reflexivity.
Defined.

(** C5. On the loop edge the dictionary stored under [analysis_draft] is
    exactly the title and content of the revision just submitted: two
    fields, and no [changes_made] among them. *)
Theorem C5_loop_edge_draft title content changes_made c i m :
  iteration_needed_is c true → iteration_is c i → max_iterations_is c m → i < m →
  ∃ d, (submit_revised_analysis title content changes_made c).1 !! "analysis_draft" =
         Some (VDict d) ∧
       d = [("title", VStr title); ("content", VStr content)] ∧
       assoc "changes_made" d = None.
Proof.
  intros Hb Hi Hm Hlt.
  rewrite (submit_revised_analysis_loop _ _ _ _ _ _ Hb Hi Hm Hlt). simpl.
  eexists. split; [by simplify_map_eq|]. done.
Qed.

Lemma C5_loop_edge_draft_witness :
  ∃ d, (submit_revised_analysis "Findings" "Second draft" (Some ["tightened the summary"])
          (<["current_iteration" := VInt 2]> shared_context)).1 !! "analysis_draft" =
         Some (VDict d) ∧
       d = [("title", VStr "Findings"); ("content", VStr "Second draft")] ∧
       assoc "changes_made" d = None.
Proof.
  apply (C5_loop_edge_draft "Findings" "Second draft" (Some ["tightened the summary"])
           (<["current_iteration" := VInt 2]> shared_context) 2 3);
    [reflexivity | reflexivity | reflexivity | lia].
Defined.

(** C7. A Revision submission returns normally and takes exactly one of
    its two branches: either the stage is ['review'] afterwards, with
    [current_iteration] advanced and [analysis_draft] replaced, or the stage
    is ['final'] afterwards, with [current_iteration] and [analysis_draft]
    as they were; the two guards on the stage never hold together. *)
Theorem C7_revision_exactly_one_branch title content changes_made c b i m :
  iteration_needed_is c b → iteration_is c i → max_iterations_is c m →
  ∃ r, submit_revised_analysis title content changes_made c = (context_variables r, inr r) ∧
    ((context_variables r !! "current_stage" = Some (VStr "review") ∧
      stage_is (context_variables r) "review" = true ∧
      stage_is (context_variables r) "final" = false ∧
      iteration_is (context_variables r) (i + 1) ∧
      context_variables r !! "analysis_draft" = Some (title_content title content))
     ∨
     (context_variables r !! "current_stage" = Some (VStr "final") ∧
      stage_is (context_variables r) "final" = true ∧
      stage_is (context_variables r) "review" = false ∧
      iteration_is (context_variables r) i ∧
      context_variables r !! "analysis_draft" = c !! "analysis_draft")).
Proof.
  intros Hb Hi Hm.
  destruct (decide (b = true ∧ i < m)) as [[-> Hlt]|Hno].
  - rewrite (submit_revised_analysis_loop _ _ _ _ _ _ Hb Hi Hm Hlt). returned. left.
    match goal with |- ?c' !! _ = _ ∧ _ =>
      assert (c' !! "current_stage" = Some (VStr "review")) as Hs by (by simplify_map_eq)
    end.
    destruct (stage_is_review _ Hs) as [? ?].
    unfold iteration_is. repeat split; try done; by simplify_map_eq.
  - rewrite (submit_revised_analysis_final _ _ _ _ _ _ _ Hb Hi Hm Hno). returned. right.
    match goal with |- ?c' !! _ = _ ∧ _ =>
      assert (c' !! "current_stage" = Some (VStr "final")) as Hs by (by simplify_map_eq)
    end.
    destruct (stage_is_final _ Hs) as [? ?].
    unfold iteration_is in *. repeat split; try done; by simplify_map_eq.
Qed.

Lemma C7_revision_exactly_one_branch_witness :
  let c := <["current_iteration" := VInt 3]> shared_context in
  (iteration_needed_is c true ∧ iteration_is c 3 ∧ max_iterations_is c 3) ∧
  ∃ r, submit_revised_analysis "Findings" "Third draft" None c = (context_variables r, inr r) ∧
    ((context_variables r !! "current_stage" = Some (VStr "review") ∧
      stage_is (context_variables r) "review" = true ∧
      stage_is (context_variables r) "final" = false ∧
      iteration_is (context_variables r) (3 + 1) ∧
      context_variables r !! "analysis_draft" = Some (title_content "Findings" "Third draft"))
     ∨
     (context_variables r !! "current_stage" = Some (VStr "final") ∧
      stage_is (context_variables r) "final" = true ∧
      stage_is (context_variables r) "review" = false ∧
      iteration_is (context_variables r) 3 ∧
      context_variables r !! "analysis_draft" = c !! "analysis_draft")).
Proof.
  intros c. split; [repeat split; reflexivity|].
  apply (C7_revision_exactly_one_branch "Findings" "Third draft" None c true 3 3);
    reflexivity.
Defined.

(** C4. Once a Review submission has set [iteration_needed] to false, the
    Revision submission that follows returns normally with the stage set to
    ['final'] and enables the final edge, whatever the dictionary held
    before, [current_iteration] and [max_iterations] included (they are not
    even read). *)
Theorem C4_review_false_forces_final
    items overall_assessment priority_issues title content changes_made (c : Ctx) :
  ∃ r,
    submit_revised_analysis title content changes_made
      (submit_feedback items overall_assessment priority_issues false c).1
    = (context_variables r, inr r) ∧
    context_variables r !! "current_stage" = Some (VStr "final") ∧
    edge_of (SubmitRevisedAnalysis title content changes_made)
      (submit_feedback items overall_assessment priority_issues false c).1 = FinalEdge.
Proof.
  set (c1 := (submit_feedback items overall_assessment priority_issues false c).1).
  assert (iteration_needed_is c1 false) as Hb.
  { unfold iteration_needed_is, c1, submit_feedback. exec. by simplify_map_eq. }
  unfold edge_of. simpl.
  rewrite (submit_revised_analysis_not_needed title content changes_made c1 Hb).
  returned. split; [by simplify_map_eq|].
  unfold stage_is. by simplify_map_eq.
Qed.

(** ** Finalization *)

(** C6. [finalize_analysis] returns normally, having stored the title and
    content under [final_analysis] and set [iteration_needed] to false (and
    nothing else); its result names [report_recorder_agent], and with that
    result the next executor is [report_recorder_agent] whatever hand-offs
    are registered for the finalization agent. *)
Theorem C6_finalize_analysis title content (c : Ctx) :
  ∃ r, finalize_analysis title content c = (context_variables r, inr r) ∧
    context_variables r =
      <["iteration_needed" := VBool false]> (
      <["final_analysis" := VDict [("title", VStr title); ("content", VStr content)]]> c) ∧
    context_variables r !! "final_analysis" =
      Some (VDict [("title", VStr title); ("content", VStr content)]) ∧
    context_variables r !! "iteration_needed" = Some (VBool false) ∧
    agent r = Some report_recorder_agent ∧
    ∀ rules : HandOffs,
      next_executor r rules (context_variables r) = Some (ToAgent report_recorder_agent).
Proof.
  unfold finalize_analysis. exec. returned.
  repeat split; by simplify_map_eq.
Qed.

(** ** Review *)

(** C8, as the code has it.  [submit_feedback] accepts every list of
    items, the empty one too, with either value of [iteration_needed]: it
    returns normally, stores the dumped collection under
    [feedback_collection], copies [iteration_needed] into the context and
    sets the stage to ['revision']. *)
Theorem C8_submit_feedback_accepts_any_items
    items overall_assessment priority_issues iteration_needed (c : Ctx) :
  ∃ r, submit_feedback items overall_assessment priority_issues iteration_needed c
       = (context_variables r, inr r) ∧
    context_variables r =
      <["current_stage" := VStr "revision"]> (
      <["iteration_needed" := VBool iteration_needed]> (
      <["feedback_collection" :=
          VDict [("items", VList (FeedbackItem.model_dump <$> items));
                 ("overall_assessment", VStr overall_assessment);
                 ("priority_issues", VList (VStr <$> priority_issues));
                 ("iteration_needed", VBool iteration_needed)]]> c)).
Proof. unfold submit_feedback. exec. by returned. Qed.

(** C8, as the claim has it, fails: a submission that asks for another
    iteration and lists no item is accepted. *)
Lemma C8_empty_items_accepted : ¬ review_requires_items.
Proof.
  intros H.
  destruct (submit_feedback [] "Needs another pass" [] true shared_context) as [c' res] eqn:E.
  destruct res as [e|r]; [discriminate E|].
  by apply (H [] "Needs another pass" [] shared_context c' r E).
Qed.

(** ** Error fields and unused keys *)

(** A property kept by every call holds all along every run. *)
Lemma trace_invariant (P : Ctx → Prop) :
  (∀ op c, P c → P (call op c).1) → ∀ ops c, P c → Forall P (trace ops c).
Proof.
  intros Hstep. induction ops as [|op ops IH]; intros c Hc; simpl.
  - by repeat constructor.
  - constructor; [done|]. by apply IH, Hstep.
Qed.

(** C9, as the code has it.  No tool function assigns to [has_error],
    [error_message] or [error_stage]: after every call, raising or not,
    they hold what they held before, and along every run from
    [shared_context] they hold their defaults. *)
Theorem C9_error_fields_never_written op ops (c : Ctx) :
  ((call op c).1 !! "has_error" = c !! "has_error" ∧
   (call op c).1 !! "error_message" = c !! "error_message" ∧
   (call op c).1 !! "error_stage" = c !! "error_stage") ∧
  Forall error_fields_unset (trace ops shared_context).
Proof.
  split.
  - repeat split; apply call_frame; not_written.
  - apply trace_invariant; [|done].
    intros o c' (H1 & H2 & H3). unfold error_fields_unset.
    by rewrite !call_frame by not_written.
Qed.

(** C9, as the claim has it, fails: [read_data] without the data files
    raises and the error fields are still at their defaults. *)
Lemma C9_read_failure_leaves_defaults : ¬ failures_set_error_fields.
Proof.
  intros H.
  apply (H (ReadData os_without_data) shared_context shared_context
           (FileNotFoundError "data/transcripts.md")); done.
Qed.

(** C10. [focus_group_transcripts], [focus_group_objectives] and
    [final_report] are assigned by no tool function and hold their initial
    values along every run from [shared_context]; the keys that are
    assigned instead, [fg_transcripts], [fg_objectives] and
    [final_analysis], are absent from [shared_context]; [read_data] stores
    each text it manages to read under its [fg_] key, and
    [finalize_analysis] stores its document under [final_analysis]. *)
Theorem C10_unused_keys op ops os title content (c : Ctx) :
  ((call op c).1 !! "focus_group_transcripts" = c !! "focus_group_transcripts" ∧
   (call op c).1 !! "focus_group_objectives" = c !! "focus_group_objectives" ∧
   (call op c).1 !! "final_report" = c !! "final_report") ∧
  Forall unused_keys_unset (trace ops shared_context) ∧
  (shared_context !! "fg_transcripts" = None ∧
   shared_context !! "fg_objectives" = None ∧
   shared_context !! "final_analysis" = None) ∧
  (read_data os c).1 !! "fg_transcripts" =
    match read_text os "data/transcripts.md" with
    | inr transcripts => Some (VStr transcripts)
    | inl _ => c !! "fg_transcripts"
    end ∧
  (read_data os c).1 !! "fg_objectives" =
    match read_text os "data/transcripts.md", read_text os "data/objectives.md" with
    | inr _, inr objectives => Some (VStr objectives)
    | _, _ => c !! "fg_objectives"
    end ∧
  (finalize_analysis title content c).1 !! "final_analysis" =
    Some (VDict [("title", VStr title); ("content", VStr content)]).
Proof.
  split; [repeat split; apply call_frame; not_written|].
  split.
  { apply trace_invariant; [|done].
    intros o c' (H1 & H2 & H3). unfold unused_keys_unset.
    by rewrite !call_frame by not_written. }
  split; [done|].
  rewrite read_data_unfold.
  destruct (read_text os "data/transcripts.md"); simpl.
  { repeat split; try done. unfold finalize_analysis. exec. by simplify_map_eq. }
  destruct (read_text os "data/objectives.md"); simpl.
  all: repeat split; try by simplify_map_eq.
  all: unfold finalize_analysis; exec; by simplify_map_eq.
Qed.

(** ** The iteration bound along runs *)

(** C2, as the code has it.  From a starting context with
    [current_iteration = 0] and [max_iterations = m >= 1], whatever calls
    are made and in whatever order, [current_iteration] is an integer no
    greater than [max_iterations] in every context of the run, at every
    stage; and [current_iteration] never goes down from one call to the
    next in the runs where [read_data] is not called again after the first
    call. *)
Theorem C2_iteration_bounded_and_monotone ops (c0 : Ctx) b m :
  iteration_needed_is c0 b → iteration_is c0 0 → max_iterations_is c0 m → 1 ≤ m →
  Forall (λ c, ∃ i, iteration_is c i ∧ max_iterations_is c m ∧ i ≤ m) (trace ops c0) ∧
  (Forall (λ op, is_read_data op = false) (tail ops) → non_decreasing (trace ops c0)).
Proof.
  intros Hb Hi Hm H1. split.
  - eapply Forall_impl; [apply (trace_bounded ops c0 b 0 m); auto; lia|].
    simpl. intros c (b' & i' & _ & ? & ? & ?). eauto.
  - destruct ops as [|op ops]; simpl.
    { intros _ [|k] ?????; simpl; done. }
    intros Hops.
    destruct (call_iteration_state op c0 b 0 m Hb Hi Hm) as (Hm' & b' & i' & Hb' & Hi' & Hrel).
    intros [|k] x y ix iy Hx Hy Hix Hiy; simpl in Hx, Hy.
    + rewrite trace_head in Hy. simplify_eq.
      unfold iteration_is in *. simplify_eq.
      destruct op; lia.
    + by eapply (trace_non_decreasing ops _ _ _ _ Hb' Hi' Hm' Hops k).
Qed.

Lemma C2_iteration_bounded_and_monotone_witness :
  let ops := [ReadData (os_with_data "transcripts" "objectives");
              SubmitAnalysisDraft "Findings" "First draft";
              SubmitFeedback [] "Thin on evidence" ["quotes"] true;
              SubmitRevisedAnalysis "Findings" "Second draft" None] in
  (iteration_needed_is shared_context true ∧ iteration_is shared_context 0 ∧
   max_iterations_is shared_context 3 ∧ 1 ≤ 3 ∧
   Forall (λ op, is_read_data op = false) (tail ops)) ∧
  Forall (λ c, ∃ i, iteration_is c i ∧ max_iterations_is c 3 ∧ i ≤ 3)
    (trace ops shared_context) ∧
  non_decreasing (trace ops shared_context).
Proof.
  intros ops.
  assert (Forall (λ op, is_read_data op = false) (tail ops)) as Hops
    by (repeat constructor).
  split; [repeat split; first [reflexivity | lia | exact Hops]|].
  destruct (C2_iteration_bounded_and_monotone ops shared_context true 3)
    as [Hbound Hmono]; [reflexivity | reflexivity | reflexivity | lia |].
  split; [exact Hbound | exact (Hmono Hops)].
Defined.

(** C2, as the claim has it, fails: [read_data] called again after the
    loop has advanced puts [current_iteration] back from 2 to 1. *)
Lemma C2_read_data_resets_iteration :
  let os := os_with_data "transcripts" "objectives" in
  iteration_is shared_context 0 ∧ max_iterations_is shared_context 3 ∧
  ¬ non_decreasing
      (trace [ReadData os;
              SubmitAnalysisDraft "Findings" "First draft";
              SubmitFeedback [] "Thin on evidence" ["quotes"] true;
              SubmitRevisedAnalysis "Findings" "Second draft" None;
              ReadData os] shared_context).
Proof.
  intros os. split; [reflexivity|]. split; [reflexivity|].
  intros H.
  set (ops4 := [ReadData os;
                SubmitAnalysisDraft "Findings" "First draft";
                SubmitFeedback [] "Thin on evidence" ["quotes"] true;
                SubmitRevisedAnalysis "Findings" "Second draft" None]).
  pose (c4 := default ∅ (last (trace ops4 shared_context))).
  pose (c5 := (call (ReadData os) c4).1).
  assert (2 ≤ 1); [|lia].
  apply (H 4%nat c4 c5 2 1); reflexivity.
Qed.

(** With [current_iteration = i <= max_iterations = m] and no further
    [read_data], at most [m - i] Revision submissions loop back, the final
    branch is taken within the first [m - i + 1] of them, and each of them
    takes one of the two edges. *)
Lemma revision_edges_bound ops : ∀ c b i m,
  iteration_needed_is c b → iteration_is c i → max_iterations_is c m → i ≤ m →
  Forall (λ op, is_read_data op = false) ops →
  (length (List.filter is_loop_edge (revision_edges ops c)) ≤ Z.to_nat (m - i))%nat ∧
  ((Z.to_nat (m - i) < length (revision_edges ops c))%nat →
     ∃ k, (k ≤ Z.to_nat (m - i))%nat ∧ revision_edges ops c !! k = Some FinalEdge) ∧
  Forall (λ e, e ≠ NoEdge) (revision_edges ops c).
Proof.
  induction ops as [|op ops IH]; intros c b i m Hb Hi Hm Hle Hops; simpl.
  - repeat split; [lia | simpl; lia | constructor].
  - apply Forall_cons in Hops as [Hop Hops].
    destruct (call_iteration_state op c b i m Hb Hi Hm) as (Hm' & b' & i' & Hb' & Hi' & Hrel).
    destruct op; simpl in *; try discriminate Hop; subst;
      try (by apply (IH _ _ _ _ Hb' Hi' Hm' Hle Hops)).
    destruct Hrel as [(-> & Hlt & -> & ->) | (Hno & -> & ->)]; simpl.
    + destruct (IH _ _ _ _ Hb' Hi' Hm' ltac:(lia) Hops) as (Hcount & Hfinal & Hedges).
      replace (Z.to_nat (m - i)) with (S (Z.to_nat (m - (i + 1)))) by lia.
      repeat split.
      * lia.
      * intros Hlen. destruct Hfinal as (k & Hk & Hlook); [lia|].
        exists (S k). split; [lia | done].
      * by constructor.
    + destruct (IH _ _ _ _ Hb' Hi' Hm' Hle Hops) as (Hcount & Hfinal & Hedges).
      repeat split.
      * done.
      * intros _. exists 0%nat. split; [lia | done].
      * by constructor.
Qed.

(** C3. In a run that starts with [current_iteration = 1] and does not
    call [read_data] again, the loop edge fires at most
    [max_iterations - 1] times, and when there are [max_iterations] or more
    Revision submissions one of the first [max_iterations] takes the final
    branch.  With [max_iterations = 1] the first Revision submission takes
    the final branch, [iteration_needed] being true or not. *)
Theorem C3_loop_edge_bound ops (c : Ctx) b m :
  iteration_needed_is c b → iteration_is c 1 → max_iterations_is c m → 1 ≤ m →
  Forall (λ op, is_read_data op = false) ops →
  Z.of_nat (loop_edges_fired ops c) ≤ m - 1 ∧
  ((Z.to_nat m ≤ length (revision_edges ops c))%nat →
     ∃ k, (k < Z.to_nat m)%nat ∧ revision_edges ops c !! k = Some FinalEdge) ∧
  (m = 1 → ∀ e, head (revision_edges ops c) = Some e → e = FinalEdge).
Proof.
  intros Hb Hi Hm H1 Hops.
  destruct (revision_edges_bound ops c b 1 m Hb Hi Hm H1 Hops) as (Hcount & Hfinal & _).
  unfold loop_edges_fired. repeat split.
  - lia.
  - intros Hlen. destruct Hfinal as (k & Hk & Hlook); [lia|].
    exists k. split; [lia | done].
  - intros -> e He.
    destruct (revision_edges ops c) as [|e' edges]; [done|].
    simpl in He. simplify_eq.
    destruct Hfinal as (k & Hk & Hlook); [simpl; lia|].
    replace k with 0%nat in Hlook by lia. simpl in Hlook. by simplify_eq.
Qed.

Lemma C3_loop_edge_bound_witness :
  let c := <["max_iterations" := VInt 1]> (<["current_iteration" := VInt 1]> shared_context) in
  let ops := [SubmitAnalysisDraft "Findings" "First draft";
              SubmitFeedback [] "Thin on evidence" ["quotes"] true;
              SubmitRevisedAnalysis "Findings" "Second draft" None] in
  (iteration_needed_is c true ∧ iteration_is c 1 ∧ max_iterations_is c 1 ∧ 1 ≤ 1 ∧
   Forall (λ op, is_read_data op = false) ops) ∧
  Z.of_nat (loop_edges_fired ops c) ≤ 1 - 1 ∧
  ((Z.to_nat 1 ≤ length (revision_edges ops c))%nat →
     ∃ k, (k < Z.to_nat 1)%nat ∧ revision_edges ops c !! k = Some FinalEdge) ∧
  (1 = 1 → ∀ e, head (revision_edges ops c) = Some e → e = FinalEdge).
Proof.
  intros c ops.
  assert (Forall (λ op, is_read_data op = false) ops) as Hops by (repeat constructor).
  split; [repeat split; first [reflexivity | lia | exact Hops]|].
  apply (C3_loop_edge_bound ops c true 1);
    [reflexivity | reflexivity | reflexivity | lia | exact Hops].
Defined.

(** ** The workflow as wired *)

Lemma trace_last ops : ∀ c, last (trace ops c) = Some (run ops c).
Proof.
  induction ops as [|op ops IH]; intros c; [done|].
  simpl. rewrite <- (IH (call op c).1). by destruct ops.
Qed.


(** After a Revision submission the hand-offs registered for
    [revision_agent] resolve along the edge the submission enabled. *)
Lemma revision_hand_off title content changes_made c b i m :
  iteration_needed_is c b → iteration_is c i → max_iterations_is c m →
  ∃ r, submit_revised_analysis title content changes_made c = (context_variables r, inr r) ∧
    next_executor r (hand_offs revision_agent) (context_variables r) =
      Some (ToAgent (if b && (i <? m) then review_agent else finalization_agent)).
Proof.
  intros Hb Hi Hm.
  destruct (decide (b = true ∧ i < m)) as [[-> Hlt]|Hno].
  - rewrite (submit_revised_analysis_loop _ _ _ _ _ _ Hb Hi Hm Hlt). returned.
    assert ((i <? m) = true) as -> by lia.
    unfold next_executor. simpl. by simplify_map_eq.
  - rewrite (submit_revised_analysis_final _ _ _ _ _ _ _ Hb Hi Hm Hno). returned.
    assert (b && (i <? m) = false) as ->.
    { destruct b; simpl; [|done]. apply Z.ltb_ge. lia. }
    unfold next_executor. simpl. by simplify_map_eq.
Qed.

(** In scenario B two loop edges fire and the run ends in the final stage
    with [current_iteration = 3]. *)
Example scenario_B :
  revision_edges scenario_B_calls shared_context = [LoopEdge; LoopEdge; FinalEdge] ∧
  loop_edges_fired scenario_B_calls shared_context = 2%nat ∧
  iteration_is (run scenario_B_calls shared_context) 3 ∧
  stage_is (run scenario_B_calls shared_context) "final" = true.
Proof. repeat split; vm_compute; reflexivity. Qed.

(** The message of the loop branch carries the new iteration number. *)
Example loop_message :
  message (submit_revised_analysis "Findings" "Second draft" None
             (<["current_iteration" := VInt 1]> shared_context)).2
  = Some "Analysis revised. Starting iteration 2 with another review.".
Proof. vm_compute. reflexivity. Qed.

(** [write_report_to_file] writes under [reports] in the working directory. *)
Example write_report_path :
  message (write_report_to_file os_without_data "# Report" "fg.md")
  = Some "Report written to /srv/fg/reports/fg.md".
Proof. vm_compute. reflexivity. Qed.

(** No hand-off leads back to [ingestion_agent], the only agent that has
    [read_data]: once the run has left it, [read_data] is not called again. *)
Lemma ingestion_not_targeted a :
  (ingestion_agent ∉ (fst <$> on_context (hand_offs a))) ∧
  after_work (hand_offs a) ≠ Some (ToAgent ingestion_agent).
Proof.
  destruct a; simpl; split; try done;
    repeat (apply not_elem_of_cons; split; [done|]); apply not_elem_of_nil.
Qed.

(** ** Write sets and the keys of the context *)

Lemma call_outside_write_set op (c : Ctx) key :
  key ∉ write_set op → (call op c).1 !! key = c !! key.
Proof.
  intros Hkey.
  destruct op; simpl in Hkey;
    repeat (apply not_elem_of_cons in Hkey as [? Hkey]); simpl.
  - rewrite read_data_unfold.
    destruct (read_text os "data/transcripts.md"); [done|].
    destruct (read_text os "data/objectives.md"); simpl; by simplify_map_eq.
  - unfold submit_analysis_draft. exec. by simplify_map_eq.
  - unfold submit_feedback. exec. by simplify_map_eq.
  - unfold submit_revised_analysis. rewrite setitem_then.
    set (c1 := <["revised_analysis" := _]> c).
    assert (c1 !! key = c !! key) as <- by (unfold c1; by simplify_map_eq).
    generalize (another_iteration_ctx c1).
    unfold mbind at 1, Exec_bind, bind at 1.
    destruct (another_iteration c1) as [c2 [e|[|]]]; simpl; intros ->; [done| |].
    + exec. destruct (c1 !! "current_iteration") as [x|]; [|done]. simpl.
      destruct (py_add1 x); simpl; [done|]. by simplify_map_eq.
    + exec. by simplify_map_eq.
  - unfold finalize_analysis. exec. by simplify_map_eq.
  - done.
Qed.

(** A call changes no key outside the write set of its tool function,
    whether it returns or raises. *)
Theorem call_write_set op (c : Ctx) key :
  key ∉ write_set op → (call op c).1 !! key = c !! key.
Proof. apply call_outside_write_set. Qed.

Lemma call_write_set_witness :
  ("max_iterations" ∉ write_set (SubmitRevisedAnalysis "Findings" "Second draft" None)) ∧
  (call (SubmitRevisedAnalysis "Findings" "Second draft" None) shared_context).1
    !! "max_iterations" = shared_context !! "max_iterations".
Proof.
  assert ("max_iterations" ∉ write_set (SubmitRevisedAnalysis "Findings" "Second draft" None))
    as H by (simpl; not_in_list).
  split; [exact H|].
  exact (call_write_set (SubmitRevisedAnalysis "Findings" "Second draft" None)
           shared_context "max_iterations" H).
Defined.

(** A call keeps every key that was there. *)
Lemma call_keeps_keys op (c : Ctx) key :
  is_Some (c !! key) → is_Some ((call op c).1 !! key).
Proof.
  intros Hkey.
  destruct (decide (key ∈ write_set op)) as [Hin|Hout];
    [|by rewrite call_outside_write_set].
  destruct op; simpl.
  - rewrite read_data_unfold.
    destruct (read_text os "data/transcripts.md"); [done|].
    destruct (read_text os "data/objectives.md"); simpl;
      rewrite ?lookup_insert_is_Some'; auto 10.
  - unfold submit_analysis_draft. exec. rewrite ?lookup_insert_is_Some'; auto 10.
  - unfold submit_feedback. exec. rewrite ?lookup_insert_is_Some'; auto 10.
  - unfold submit_revised_analysis. rewrite setitem_then.
    set (c1 := <["revised_analysis" := _]> c).
    assert (is_Some (c1 !! key)) as H1
      by (unfold c1; rewrite lookup_insert_is_Some'; auto).
    generalize (another_iteration_ctx c1).
    unfold mbind at 1, Exec_bind, bind at 1.
    destruct (another_iteration c1) as [c2 [e|[|]]]; simpl; intros ->; [done| |].
    + exec. destruct (c1 !! "current_iteration") as [x|]; [|done]. simpl.
      destruct (py_add1 x); simpl; [done|]. rewrite ?lookup_insert_is_Some'; auto 10.
    + exec. rewrite ?lookup_insert_is_Some'; auto 10.
  - unfold finalize_analysis. exec. rewrite ?lookup_insert_is_Some'; auto 10.
  - done.
Qed.

Lemma run_cons op ops c : run (op :: ops) c = run ops (call op c).1.
Proof. done. Qed.

Lemma run_dom ops : ∀ (c : Ctx),
  dom c ⊆ dom (run ops c) ∧ dom (run ops c) ⊆ dom c ∪ list_to_set written_keys.
Proof.
  induction ops as [|op ops IH]; intros c;
    [split; [done | apply union_subseteq_l]|].
  rewrite run_cons. destruct (IH (call op c).1) as [IH1 IH2].
  split.
  - intros key Hkey. apply IH1. apply elem_of_dom.
    apply call_keeps_keys. by apply elem_of_dom.
  - intros key Hkey. apply IH2 in Hkey.
    apply elem_of_union in Hkey as [Hkey|Hkey]; [|by apply elem_of_union_r].
    destruct (decide (key ∈ written_keys)) as [Hin|Hout];
      [by apply elem_of_union_r, elem_of_list_to_set|].
    apply elem_of_union_l. apply elem_of_dom. apply elem_of_dom in Hkey.
    by rewrite call_frame in Hkey.
Qed.

(** Along a run no key is ever removed from the context, and the only keys
    added are among those the tool functions assign to: from
    [shared_context] that is its fourteen keys plus, at most,
    [fg_transcripts], [fg_objectives] and [final_analysis]. *)
Theorem run_keys ops (c : Ctx) :
  dom c ⊆ dom (run ops c) ∧
  dom (run ops c) ⊆ dom c ∪ list_to_set written_keys ∧
  dom (run ops shared_context) ⊆
    dom shared_context ∪ {["fg_transcripts"; "fg_objectives"; "final_analysis"]}.
Proof.
  assert (Hgen := run_dom).
  destruct (Hgen ops c) as [H1 H2]. split; [done|]. split; [done|].
  destruct (Hgen ops shared_context) as [_ H3].
  intros key Hkey. apply H3 in Hkey.
  apply elem_of_union in Hkey as [Hkey|Hkey]; [by apply elem_of_union_l|].
  unfold written_keys in Hkey. rewrite !list_to_set_cons in Hkey.
  rewrite !elem_of_union, !elem_of_singleton in Hkey.
  destruct Hkey as [->|[->|[->|[->|[->|[->|[->|[->|[->|[->|Hkey]]]]]]]]]];
    try (by apply elem_of_empty in Hkey);
    try (apply elem_of_union_l; apply elem_of_dom; vm_compute; by eexists);
    try (apply elem_of_union_r; rewrite !elem_of_union, !elem_of_singleton; by auto).
Qed.

(** [max_iterations] is assigned by no tool function: along every run it
    holds what it held at the start (or stays absent). *)
Theorem max_iterations_constant ops (c : Ctx) :
  Forall (λ c', c' !! "max_iterations" = c !! "max_iterations") (trace ops c).
Proof.
  apply (trace_invariant (λ c', c' !! "max_iterations" = c !! "max_iterations"));
    [|done].
  intros op c' <-. apply call_outside_write_set. destruct op; simpl; not_in_list.
Qed.

(** [loop_started] is only ever assigned [True]: once it holds [True] it
    holds [True] in every later context of the run. *)
Theorem loop_started_stays ops (c : Ctx) :
  c !! "loop_started" = Some (VBool true) →
  Forall (λ c', c' !! "loop_started" = Some (VBool true)) (trace ops c).
Proof.
  apply (trace_invariant (λ c', c' !! "loop_started" = Some (VBool true))). clear.
  intros op c Hc.
  destruct (decide ("loop_started" ∈ write_set op)) as [Hin|Hout];
    [|by rewrite call_outside_write_set].
  destruct op; simpl in Hin;
    try (exfalso; revert Hin; not_in_list).
  simpl. rewrite read_data_unfold.
  destruct (read_text os "data/transcripts.md"); [done|].
  destruct (read_text os "data/objectives.md"); simpl; by simplify_map_eq.
Qed.

Lemma loop_started_stays_witness :
  let c := (read_data (os_with_data "transcripts" "objectives") shared_context).1 in
  let ops := [SubmitAnalysisDraft "Findings" "First draft";
              ReadData os_without_data;
              FinalizeAnalysis "Findings" "First draft"] in
  c !! "loop_started" = Some (VBool true) ∧
  Forall (λ c', c' !! "loop_started" = Some (VBool true)) (trace ops c).
Proof.
  intros c ops. split; [reflexivity|].
  apply (loop_started_stays ops c). reflexivity.
Defined.




(** ** Ingestion: failures and repetition *)

(** When the objectives cannot be read, [read_data] raises after it has
    stored the transcripts and nothing else: the loop is not started. *)
Theorem read_data_objectives_missing os (c : Ctx) transcripts e :
  read_text os "data/transcripts.md" = inr transcripts →
  read_text os "data/objectives.md" = inl e →
  read_data os c = (<["fg_transcripts" := VStr transcripts]> c, inl e) ∧
  (read_data os c).1 !! "loop_started" = c !! "loop_started" ∧
  (read_data os c).1 !! "current_stage" = c !! "current_stage" ∧
  (read_data os c).1 !! "current_iteration" = c !! "current_iteration" ∧
  (read_data os c).1 !! "fg_objectives" = c !! "fg_objectives".
Proof.
  intros Ht Ho. rewrite read_data_unfold, Ht, Ho. simpl.
  repeat split; by simplify_map_eq.
Qed.

Lemma read_data_objectives_missing_witness :
  let os := os_without_objectives "transcripts" in
  let e := FileNotFoundError "data/objectives.md" in
  (read_text os "data/transcripts.md" = inr "transcripts" ∧
   read_text os "data/objectives.md" = inl e) ∧
  read_data os shared_context = (<["fg_transcripts" := VStr "transcripts"]> shared_context, inl e) ∧
  (read_data os shared_context).1 !! "loop_started" = shared_context !! "loop_started" ∧
  (read_data os shared_context).1 !! "current_stage" = shared_context !! "current_stage" ∧
  (read_data os shared_context).1 !! "current_iteration" = shared_context !! "current_iteration" ∧
  (read_data os shared_context).1 !! "fg_objectives" = shared_context !! "fg_objectives".
Proof.
  intros os e. split; [split; reflexivity|].
  apply (read_data_objectives_missing os shared_context "transcripts" e); reflexivity.
Defined.

(** When the transcripts cannot be read, [read_data] raises and the context
    is exactly as it was. *)
Theorem read_data_transcripts_missing os (c : Ctx) e :
  read_text os "data/transcripts.md" = inl e →
  read_data os c = (c, inl e).
Proof. intros Ht. by rewrite read_data_unfold, Ht. Qed.

Lemma read_data_transcripts_missing_witness :
  read_text os_without_data "data/transcripts.md" = inl (FileNotFoundError "data/transcripts.md") ∧
  read_data os_without_data shared_context =
    (shared_context, inl (FileNotFoundError "data/transcripts.md")).
Proof.
  split; [reflexivity|].
  apply (read_data_transcripts_missing os_without_data shared_context). reflexivity.
Defined.

(** Reading the same files again changes nothing: [read_data] run a second
    time in the same environment leaves the context and returns the result
    of the first. *)
Theorem read_data_idempotent os (c : Ctx) :
  read_data os (read_data os c).1 = read_data os c.
Proof.
  rewrite !read_data_unfold.
  destruct (read_text os "data/transcripts.md") as [e|t]; simpl; [done|].
  destruct (read_text os "data/objectives.md") as [e|o]; simpl.
  - f_equal. map_lookups.
  - match goal with |- (?a, inr {| context_variables := ?a' |}) = (?b, _) =>
      assert (a = b) as -> by map_lookups end.
    done.
Qed.

(** ** Revision on contexts that lack a key *)

(** Without [iteration_needed] in the context a Revision submission raises
    [KeyError], after it has stored the revision and before it has touched
    the stage. *)
Theorem revision_without_iteration_needed title content changes_made (c : Ctx) :
  c !! "iteration_needed" = None →
  submit_revised_analysis title content changes_made c =
    (<["revised_analysis" := revised_dump title content changes_made]> c,
     inl (KeyError "iteration_needed")).
Proof.
  intros Hb. unfold submit_revised_analysis. rewrite setitem_then.
  unfold another_iteration. exec. by simplify_map_eq.
Qed.

Lemma revision_without_iteration_needed_witness :
  (∅ : Ctx) !! "iteration_needed" = None ∧
  submit_revised_analysis "Findings" "Second draft" None ∅ =
    (<["revised_analysis" := revised_dump "Findings" "Second draft" None]> ∅,
     inl (KeyError "iteration_needed")).
Proof.
  split; [reflexivity|].
  apply (revision_without_iteration_needed "Findings" "Second draft" None ∅). reflexivity.
Defined.

(** Without [max_iterations] in the context, a Revision submission raises
    [KeyError] when another iteration is asked for, and goes to the final
    stage without noticing when it is not: the bound is only read when
    [iteration_needed] is true. *)
Theorem revision_without_max_iterations title content changes_made (c : Ctx) b i :
  iteration_needed_is c b → iteration_is c i → c !! "max_iterations" = None →
  submit_revised_analysis title content changes_made c =
    if b then
      (<["revised_analysis" := revised_dump title content changes_made]> c,
       inl (KeyError "max_iterations"))
    else
      let c' := <["current_stage" := VStr "final"]> (
                <["revised_analysis" := revised_dump title content changes_made]> c) in
      (c', inr {| values := "Revisions complete. Moving to document finalization.";
                  agent := None;
                  context_variables := c' |}).
Proof.
  intros Hb Hi Hm. destruct b.
  - unfold iteration_needed_is, iteration_is in *.
    unfold submit_revised_analysis. rewrite setitem_then.
    unfold another_iteration. exec. by simplify_map_eq.
  - by apply submit_revised_analysis_not_needed.
Qed.

Lemma revision_without_max_iterations_witness :
  let c : Ctx := <["current_iteration" := VInt 1]> (<["iteration_needed" := VBool true]> ∅) in
  (iteration_needed_is c true ∧ iteration_is c 1 ∧ c !! "max_iterations" = None) ∧
  submit_revised_analysis "Findings" "Second draft" None c =
    (<["revised_analysis" := revised_dump "Findings" "Second draft" None]> c,
     inl (KeyError "max_iterations")).
Proof.
  intros c. split; [repeat split; reflexivity|].
  apply (revision_without_max_iterations "Findings" "Second draft" None c true 1);
    reflexivity.
Defined.

(** ** The counter and the loop edges *)

(** In a run without [read_data], [current_iteration] at the end is its
    value at the start plus the number of loop edges fired. *)
Theorem iteration_counts_loop_edges ops : ∀ (c : Ctx) b i m,
  iteration_needed_is c b → iteration_is c i → max_iterations_is c m →
  Forall (λ op, is_read_data op = false) ops →
  iteration_is (run ops c) (i + Z.of_nat (loop_edges_fired ops c)).
Proof.
  unfold loop_edges_fired.
  induction ops as [|op ops IH]; intros c b i m Hb Hi Hm Hops.
  - simpl. by rewrite Z.add_0_r.
  - apply Forall_cons in Hops as [Hop Hops]. rewrite run_cons.
    destruct (call_iteration_state op c b i m Hb Hi Hm) as (Hm' & b' & i' & Hb' & Hi' & Hrel).
    specialize (IH _ _ _ _ Hb' Hi' Hm' Hops).
    destruct op; simpl in Hop, Hrel; try discriminate Hop; subst; try done.
    simpl revision_edges.
    destruct Hrel as [(-> & Hlt & -> & ->) | (Hno & -> & ->)]; simpl; [|done].
    rewrite Nat2Z.inj_succ, <- Z.add_1_l, Z.add_assoc. exact IH.
Qed.

Lemma iteration_counts_loop_edges_witness :
  let c := (read_data (os_with_data "transcripts" "objectives") shared_context).1 in
  let ops := tail scenario_B_calls in
  (iteration_needed_is c true ∧ iteration_is c 1 ∧ max_iterations_is c 3 ∧
   Forall (λ op, is_read_data op = false) ops) ∧
  iteration_is (run ops c) (1 + Z.of_nat (loop_edges_fired ops c)).
Proof.
  intros c ops.
  assert (Forall (λ op, is_read_data op = false) ops) as Hops by (repeat constructor).
  split; [repeat split; first [reflexivity | exact Hops]|].
  apply (iteration_counts_loop_edges ops c true 1 3);
    [reflexivity | reflexivity | reflexivity | exact Hops].
Defined.

(** Once [iteration_needed] is false, as after [finalize_analysis], no
    Revision submission loops back until a Review asks for another
    iteration: every Revision submission of the run takes the final edge. *)
Theorem no_loop_until_asked ops : ∀ (c : Ctx),
  iteration_needed_is c false →
  Forall (λ op, asks_again op = false) ops →
  Forall (λ e, e = FinalEdge) (revision_edges ops c) ∧ loop_edges_fired ops c = 0%nat.
Proof.
  unfold loop_edges_fired.
  induction ops as [|op ops IH]; intros c Hb Hops; [done|].
  apply Forall_cons in Hops as [Hop Hops].
  assert (iteration_needed_is (call op c).1 false) as Hb'.
  { unfold iteration_needed_is in *.
    destruct (decide ("iteration_needed" ∈ write_set op)) as [Hin|Hout];
      [|by rewrite call_outside_write_set].
    destruct op; simpl in Hin, Hop; try (exfalso; revert Hin; not_in_list); simpl.
    - subst. unfold submit_feedback. exec. by simplify_map_eq.
    - unfold finalize_analysis. exec. by simplify_map_eq. }
  destruct (IH _ Hb' Hops) as [IH1 IH2].
  simpl. destruct (is_revision op) eqn:Hrev; simpl; [|done].
  destruct op; try discriminate Hrev.
  assert (edge_of (SubmitRevisedAnalysis title content changes_made) c = FinalEdge) as ->.
  { unfold edge_of. simpl.
    rewrite (submit_revised_analysis_not_needed title content changes_made c Hb). simpl.
    unfold stage_is. by simplify_map_eq. }
  split; [by constructor | done].
Qed.

Lemma no_loop_until_asked_witness :
  let c := (finalize_analysis "Findings" "Final text" shared_context).1 in
  let ops := [SubmitRevisedAnalysis "Findings" "Another draft" None;
              SubmitFeedback [] "Fine" [] false;
              SubmitRevisedAnalysis "Findings" "Yet another draft" None] in
  (iteration_needed_is c false ∧ Forall (λ op, asks_again op = false) ops) ∧
  Forall (λ e, e = FinalEdge) (revision_edges ops c) ∧ loop_edges_fired ops c = 0%nat.
Proof.
  intros c ops.
  assert (Forall (λ op, asks_again op = false) ops) as Hops by (repeat constructor).
  split; [split; [reflexivity | exact Hops]|].
  apply (no_loop_until_asked ops c); [reflexivity | exact Hops].
Defined.

(** ** Submissions replace, and the verdict is recorded twice *)

(** A property kept by the calls of some kind holds all along the runs
    made of calls of that kind. *)
Lemma trace_invariant_on (P : Ctx → Prop) (Q : Call → Prop) :
  (∀ op c, Q op → P c → P (call op c).1) →
  ∀ ops c, Forall Q ops → P c → Forall P (trace ops c).
Proof.
  intros Hstep. induction ops as [|op ops IH]; intros c Hops Hc; simpl.
  - by repeat constructor.
  - apply Forall_cons in Hops as [Hop Hops].
    constructor; [done|]. by apply IH, Hstep.
Qed.

(** A draft, a feedback collection and a final analysis each replace the
    one submitted before: two submissions in a row leave what the second
    alone would have left, and return its result. *)
Theorem submissions_overwrite (c : Ctx)
    title1 content1 title2 content2
    items1 assessment1 issues1 needed1 items2 assessment2 issues2 needed2 :
  submit_analysis_draft title2 content2 (submit_analysis_draft title1 content1 c).1
    = submit_analysis_draft title2 content2 c ∧
  submit_feedback items2 assessment2 issues2 needed2
      (submit_feedback items1 assessment1 issues1 needed1 c).1
    = submit_feedback items2 assessment2 issues2 needed2 c ∧
  finalize_analysis title2 content2 (finalize_analysis title1 content1 c).1
    = finalize_analysis title2 content2 c.
Proof.
  repeat split.
  - unfold submit_analysis_draft. exec.
    match goal with |- (?a, _) = (?b, _) => assert (a = b) as -> by map_lookups end.
    done.
  - unfold submit_feedback. exec.
    match goal with |- (?a, _) = (?b, _) => assert (a = b) as -> by map_lookups end.
    done.
  - unfold finalize_analysis. exec.
    match goal with |- (?a, _) = (?b, _) => assert (a = b) as -> by map_lookups end.
    done.
Qed.




(** ** Recording: where the report goes *)

Lemma path_join_absolute a b : String.prefix "/" b = true → path_join a b = b.
Proof. unfold path_join. by intros ->. Qed.

Lemma ends_with_sep_app s t :
  t ≠ EmptyString → ends_with_sep (s +:+ t) = ends_with_sep t.
Proof.
  intros Ht. induction s as [|a s IH]; [done|].
  simpl. rewrite IH.
  destruct (s +:+ t) eqn:E.
  - destruct s; [done | discriminate E].
  - simpl. by destruct (Ascii.eqb a _).
Qed.

Lemma reports_dir_no_sep os :
  ends_with_sep (reports_dir os) = false ∧ reports_dir os ≠ EmptyString.
Proof.
  unfold reports_dir, path_join. simpl.
  destruct (String.eqb (getcwd os) EmptyString || ends_with_sep (getcwd os)).
  - split; [by rewrite ends_with_sep_app|]. by destruct (getcwd os).
  - split; [by rewrite ends_with_sep_app|]. by destruct (getcwd os).
Qed.

(** An absolute file name takes the report out of the reports directory:
    the directory is still created when missing, but the file written, and
    named in the message, is the file name as given. *)
Theorem write_report_absolute_filename os report filename :
  String.prefix "/" filename = true →
  write_report_to_file os report filename =
    match ensure_reports_dir os with
    | inl e => inl e
    | inr _ =>
        match write_text os filename report with
        | inl e => inl e
        | inr _ => inr {| values := "Report written to " +:+ filename;
                          agent := None;
                          context_variables := ∅ |}
        end
    end.
Proof.
  intros Habs. unfold write_report_to_file, ensure_reports_dir, reports_dir.
  by rewrite (path_join_absolute _ filename Habs).
Qed.

Lemma write_report_absolute_filename_witness :
  String.prefix "/" "/etc/motd" = true ∧
  write_report_to_file os_with_reports_dir "# Report" "/etc/motd" =
    match ensure_reports_dir os_with_reports_dir with
    | inl e => inl e
    | inr _ =>
        match write_text os_with_reports_dir "/etc/motd" "# Report" with
        | inl e => inl e
        | inr _ => inr {| values := "Report written to " +:+ "/etc/motd";
                          agent := None;
                          context_variables := ∅ |}
        end
    end.
Proof.
  split; [reflexivity|].
  apply (write_report_absolute_filename os_with_reports_dir "# Report" "/etc/motd").
  reflexivity.
Defined.

(** A file name that does not start with a slash is written directly
    under the reports directory, which is [reports] under the working
    directory, with exactly one slash between them. *)
Theorem write_report_relative_filename os report filename :
  String.prefix "/" filename = false →
  write_report_to_file os report filename =
    match ensure_reports_dir os with
    | inl e => inl e
    | inr _ =>
        match write_text os (reports_dir os +:+ "/" +:+ filename) report with
        | inl e => inl e
        | inr _ => inr {| values := "Report written to "
                                    +:+ (reports_dir os +:+ "/" +:+ filename);
                          agent := None;
                          context_variables := ∅ |}
        end
    end.
Proof.
  intros Hrel. destruct (reports_dir_no_sep os) as [Hsep Hne].
  unfold write_report_to_file, ensure_reports_dir.
  fold (reports_dir os).
  assert (path_join (reports_dir os) filename = reports_dir os +:+ "/" +:+ filename) as ->.
  { unfold path_join. rewrite Hrel, Hsep.
    destruct (reports_dir os); [done|]. done. }
  done.
Qed.

Lemma write_report_relative_filename_witness :
  String.prefix "/" "fg.md" = false ∧
  write_report_to_file os_without_data "# Report" "fg.md" =
    match ensure_reports_dir os_without_data with
    | inl e => inl e
    | inr _ =>
        match write_text os_without_data
                (reports_dir os_without_data +:+ "/" +:+ "fg.md") "# Report" with
        | inl e => inl e
        | inr _ => inr {| values := "Report written to "
                                    +:+ (reports_dir os_without_data +:+ "/" +:+ "fg.md");
                          agent := None;
                          context_variables := ∅ |}
        end
    end.
Proof.
  split; [reflexivity|].
  apply (write_report_relative_filename os_without_data "# Report" "fg.md").
  reflexivity.
Defined.

(** [write_report_to_file] returns exactly when the directory is there or
    can be made and the write succeeds; what it raises is what [makedirs]
    or the write raised; what it returns carries an empty context and names
    no agent. *)
Theorem write_report_outcome os report filename :
  ((∃ r, write_report_to_file os report filename = inr r) ↔
   (path_exists os (reports_dir os) = true ∨ makedirs os (reports_dir os) = inr tt) ∧
   write_text os (path_join (reports_dir os) filename) report = inr tt) ∧
  match write_report_to_file os report filename with
  | inr r => context_variables r = ∅ ∧ agent r = None
  | inl e =>
      (path_exists os (reports_dir os) = false ∧ makedirs os (reports_dir os) = inl e) ∨
      write_text os (path_join (reports_dir os) filename) report = inl e
  end.
Proof.
  unfold write_report_to_file. fold (reports_dir os).
  destruct (path_exists os (reports_dir os)) eqn:Hex.
  - destruct (write_text os (path_join (reports_dir os) filename) report) as [e|[]] eqn:Hw.
    + split; [|by right]. split; [by intros [r Hr] | by intros [_ ?]].
    + split; [|done]. split; [by auto | by eauto].
  - destruct (makedirs os (reports_dir os)) as [e|[]] eqn:Hmk.
    + split; [|by left]. split; [by intros [r Hr] | by intros [[?|?] _]].
    + destruct (write_text os (path_join (reports_dir os) filename) report) as [e|[]] eqn:Hw.
      * split; [|by right]. split; [by intros [r Hr] | by intros [_ ?]].
      * split; [|done]. split; [by auto | by eauto].
Qed.


(** ** The summary: what every printed line satisfies *)

Lemma prints_bind {A B} (P : line → Prop) (m : Print A) (k : A → Print B) :
  Forall P m.1 → (∀ a, Forall P (k a).1) → Forall P (m ≫= k).1.
Proof.
  intros Hm Hk. destruct m as [out [e|a]]; simpl; [done|].
  apply Forall_app. split; [done | apply Hk].
Qed.

Lemma prints_print (P : line → Prop) l : P l → Forall P (print l).1.
Proof. intros. by repeat constructor. Qed.

Lemma prints_ret {A} (P : line → Prop) (a : A) : Forall P (mret a : Print A).1.
Proof. constructor. Qed.

Lemma prints_lift {A} (P : line → Prop) (r : exn + A) : Forall P (print_lift r).1.
Proof. destruct r; constructor. Qed.

Lemma prints_value_get (P : line → Prop) v key dflt : Forall P (value_get v key dflt).1.
Proof. destruct v; constructor. Qed.

Lemma prints_for_each {A} (P : line → Prop) (l : list A) body :
  (∀ x, Forall P (body x).1) → Forall P (for_each l body).1.
Proof.
  intros Hbody. induction l as [|x l IH]; simpl; [constructor|].
  by apply prints_bind.
Qed.

Lemma prints_iteration_lines (P : line → Prop) fc i :
  (∀ v, P [Text "Iteration "; Shown v; Text ":"]) →
  P [Text "  Analysis: "; Text (mark (ctx_has "final_analysis" fc))] →
  P [Text "  Review: "; Text (mark (ctx_has "feedback_collection" fc))] →
  P [Text "  Revision: "; Text (mark (ctx_has "revised_analysis" fc))] →
  Forall P (iteration_lines fc i).1.
Proof.
  intros. unfold iteration_lines. destruct (i =? 1); simpl; by repeat constructor.
Qed.

Lemma prints_speaker_line (P : line → Prop) message :
  (∀ v, P [Shown v]) → Forall P (speaker_line message).1.
Proof.
  intros. unfold speaker_line.
  destruct (message !! "name") as [name|]; [|constructor].
  destruct (negb _); simpl; by repeat constructor.
Qed.

Lemma truthy_get_has key (c : Ctx) :
  truthy (ctx_get key c) = true → ctx_has key c = true.
Proof. unfold ctx_get, ctx_has. by destruct (c !! key). Qed.

(** What the lines of the success branch look like, for any context. *)
Lemma prints_summary (P : line → Prop) fc chat_history :
  (∀ s, P [Text s]) →
  (∀ s v, P [Text s; Shown v]) →
  (∀ v, P [Shown v]) →
  (∀ v, P [Text "Iteration "; Shown v; Text ":"]) →
  (truthy (ctx_get "final_analysis" fc) = true →
     P [Text "  Analysis: "; Text (mark (ctx_has "final_analysis" fc))] ∧
     P [Text "  Review: "; Text (mark (ctx_has "feedback_collection" fc))] ∧
     P [Text "  Revision: "; Text (mark (ctx_has "revised_analysis" fc))] ∧
     P [Text "Finalization: "; Text (mark (ctx_has "final_analysis" fc))]) →
  (truthy (ctx_get "final_analysis" fc) = false →
   truthy (ctx_get "has_error" fc) = true →
     P [Text "Error during "; Shown (ctx_get "error_stage" fc);
        Text " stage: "; Shown (ctx_get "error_message" fc)]) →
  Forall P (summary fc chat_history).1.
Proof.
  intros Htext Hshown Hval Hiter Hmarks Herr. unfold summary.
  destruct (truthy (ctx_get "final_analysis" fc)) eqn:Hfinal.
  - destruct (Hmarks eq_refl) as (? & ? & ? & ?).
    repeat first
      [ apply prints_bind; [|intros ?]
      | apply prints_for_each; intros ?
      | apply prints_print
      | apply prints_lift
      | apply prints_value_get ];
      try done; try apply Htext; try apply Hshown.
    + by apply prints_iteration_lines.
    + by apply prints_speaker_line.
  - apply prints_bind; [by apply prints_print|]. intros _.
    destruct (truthy (ctx_get "has_error" fc)) eqn:He; [|constructor].
    apply prints_print. by apply Herr.
Qed.

(** Whatever the final context and the chat history, the summary never
    reports the analysis or the finalization as not reached: those two
    lines test for the key whose value opened the branch they are in. *)
Theorem summary_never_unreached_finalization fc chat_history :
  Forall (λ l, l ≠ [Text "Finalization: "; Text (mark false)] ∧
               l ≠ [Text "  Analysis: "; Text (mark false)])
    (summary fc chat_history).1.
Proof.
  apply prints_summary; try (intros; split; discriminate).
  - intros Hfinal. rewrite (truthy_get_has _ _ Hfinal).
    repeat split; discriminate.
Qed.

(** ** The summary of a run from [shared_context] *)

Lemma run_in_trace (P : Ctx → Prop) ops c : Forall P (trace ops c) → P (run ops c).
Proof.
  intros H. rewrite Forall_forall in H. apply H.
  apply list_elem_of_lookup. exists (pred (length (trace ops c))).
  rewrite <- last_lookup. apply trace_last.
Qed.

Lemma run_has_key ops (c : Ctx) key : ctx_has key c = true → ctx_has key (run ops c) = true.
Proof.
  unfold ctx_has. intros H.
  destruct (run_dom ops c) as [Hdom _].
  assert (key ∈ dom (run ops c)) as Hk.
  { apply Hdom, elem_of_dom. by destruct (c !! key). }
  apply elem_of_dom in Hk as [v ->]. done.
Qed.

(** When the final context is that of a run from [shared_context], no line
    of the summary says "Not reached", whatever was or was not done:
    the keys the progression tests for are in the context from the start. *)
Theorem summary_never_not_reached ops chat_history :
  Forall (λ l, ∀ label, l ≠ [Text label; Text (mark false)])
    (summary (run ops shared_context) chat_history).1.
Proof.
  apply prints_summary; try (intros; discriminate).
  intros Hfinal. rewrite (truthy_get_has _ _ Hfinal).
  rewrite !(run_has_key ops shared_context) by reflexivity.
  repeat split; intros label; discriminate.
Qed.

(** When the final context is that of a run from [shared_context], the
    summary never prints the error line: [has_error] is false throughout. *)
Theorem summary_never_reports_error ops chat_history :
  Forall (λ l, ∀ stage message,
            l ≠ [Text "Error during "; Shown stage; Text " stage: "; Shown message])
    (summary (run ops shared_context) chat_history).1.
Proof.
  apply prints_summary; try (intros; discriminate).
  - intros _. repeat split; intros; discriminate.
  - intros _ Herr. exfalso.
    assert (run ops shared_context !! "has_error" = Some (VBool false)) as H.
    { apply (run_in_trace (λ c, c !! "has_error" = Some (VBool false))).
      apply (trace_invariant (λ c, c !! "has_error" = Some (VBool false))); [|done].
      intros op c <-. apply call_frame. not_written. }
    unfold ctx_get in Herr. rewrite H in Herr. discriminate Herr.
Qed.

(** A run from [shared_context] that never calls [finalize_analysis] ends
    in a context without [final_analysis], and its summary is the single
    line of the failure branch. *)
Theorem summary_without_finalization ops chat_history :
  Forall (λ op, is_finalize op = false) ops →
  run ops shared_context !! "final_analysis" = None ∧
  summary (run ops shared_context) chat_history =
    ([[Text "Document creation did not complete successfully."]], inr tt).
Proof.
  intros Hops.
  assert (run ops shared_context !! "final_analysis" = None) as Hfinal.
  { apply (run_in_trace (λ c, c !! "final_analysis" = None)).
    apply (trace_invariant_on (λ c, c !! "final_analysis" = None)
             (λ op, is_finalize op = false)); [|done|done].
    intros op c Hop <-. apply call_outside_write_set.
    destruct op; simpl; try discriminate Hop; not_in_list. }
  assert (run ops shared_context !! "has_error" = Some (VBool false)) as Herr.
  { apply (run_in_trace (λ c, c !! "has_error" = Some (VBool false))).
    apply (trace_invariant (λ c, c !! "has_error" = Some (VBool false))); [|done].
    intros op c <-. apply call_frame. not_written. }
  split; [done|].
  unfold summary, ctx_get. by rewrite Hfinal, Herr.
Qed.

Lemma summary_without_finalization_witness :
  Forall (λ op, is_finalize op = false) scenario_B_calls ∧
  run scenario_B_calls shared_context !! "final_analysis" = None ∧
  summary (run scenario_B_calls shared_context) [] =
    ([[Text "Document creation did not complete successfully."]], inr tt).
Proof.
  assert (Forall (λ op, is_finalize op = false) scenario_B_calls) as Hops
    by (repeat constructor).
  split; [exact Hops|].
  exact (summary_without_finalization scenario_B_calls [] Hops).
Defined.

Lemma for_each_ok {A} (l : list A) (body : A → Print unit) :
  (∀ x, (body x).2 = inr tt) →
  for_each l body = (mjoin ((λ x, (body x).1) <$> l), inr tt).
Proof.
  intros Hbody. induction l as [|x l IH]; [done|].
  simpl. unfold mbind, Print_bind, print_bind.
  specialize (Hbody x). destruct (body x) as [out r]. simpl in *. subst r.
  by rewrite IH.
Qed.

Lemma iteration_lines_ok fc i : (iteration_lines fc i).2 = inr tt.
Proof. unfold iteration_lines. by destruct (i =? 1). Qed.

Lemma speaker_line_ok message : (speaker_line message).2 = inr tt.
Proof.
  unfold speaker_line. destruct (message !! "name"); [|done]. by destruct (negb _).
Qed.

Lemma for_each_then {A B} (l : list A) (body : A → Print unit) (k : unit → Print B) :
  (∀ x, (body x).2 = inr tt) →
  (for_each l body ≫= k) = (mjoin ((λ x, (body x).1) <$> l) ++ (k tt).1, (k tt).2)%list.
Proof. intros Hbody. by rewrite (for_each_ok l body Hbody). Qed.

Lemma summary_finalized fc chat_history title content n :
  fc !! "final_analysis" = Some (VDict [("title", VStr title); ("content", VStr content)]) →
  fc !! "current_iteration" = Some (VInt n) →
  summary fc chat_history =
    (([[Text "Analysis completed successfully!"];
      header "ANALYSIS SUMMARY";
      [Text "Title: "; Shown (VStr title)];
      [Text "Word Count: "; Shown VNone];
      [Text "Iterations: "; Shown (VInt n)];
      header "FEEDBACK LOOP PROGRESSION"]
     ++ mjoin ((λ i, (iteration_lines fc i).1) <$> seqZ 1 n)
     ++ [[Text "Finalization: "; Text (mark true)];
         header "REVISION HISTORY";
         header "FINAL ANALYSIS";
         [Shown (VStr content)];
         [Text (newline +:+ newline +:+ "===== SPEAKER ORDER =====" +:+ newline)]]
     ++ mjoin ((λ message, (speaker_line message).1) <$> chat_history))%list,
     inr tt).
Proof.
  intros Hfinal Hiter. unfold summary, ctx_get, ctx_has. rewrite Hfinal, Hiter.
  simpl truthy. cbv iota.
  rewrite (for_each_ok chat_history speaker_line speaker_line_ok).
  unfold value_get, py_add1, print_lift. simpl.
  rewrite (for_each_then _ _ _ (iteration_lines_ok fc)).
  by replace (n + 1 - 1) with n by lia.
Qed.

Lemma count_headers_join {A} (f : A → list line) (l : list A) (k : nat) :
  (∀ x, length (List.filter is_iteration_header (f x)) = k) →
  length (List.filter is_iteration_header (mjoin (f <$> l))) = (k * length l)%nat.
Proof.
  intros Hf. induction l as [|x l IH]; csimpl; [lia|].
  rewrite List.filter_app, length_app, IH, Hf. lia.
Qed.

(** The summary of a finalized context.  With the document that
    [finalize_analysis] stores under [final_analysis] and an integer
    [current_iteration], the summary raises nothing; it shows the title
    and the content, the word count as [None] (no tool function stores
    one), and no revision history line; and it opens as many iteration
    blocks as [current_iteration] says. *)
Theorem summary_of_finalized fc chat_history title content n :
  fc !! "final_analysis" = Some (VDict [("title", VStr title); ("content", VStr content)]) →
  fc !! "current_iteration" = Some (VInt n) →
  (summary fc chat_history).2 = inr tt ∧
  [Text "Title: "; Shown (VStr title)] ∈ (summary fc chat_history).1 ∧
  [Text "Word Count: "; Shown VNone] ∈ (summary fc chat_history).1 ∧
  [Shown (VStr content)] ∈ (summary fc chat_history).1 ∧
  (∀ item, [Text "- "; Shown item] ∉ (summary fc chat_history).1) ∧
  length (List.filter is_iteration_header (summary fc chat_history).1) = Z.to_nat n.
Proof.
  intros Hfinal Hiter. rewrite (summary_finalized _ _ _ _ _ Hfinal Hiter). simpl.
  split; [done|].
  split; [by repeat first [apply list_elem_of_here | apply list_elem_of_further]|].
  split; [by repeat first [apply list_elem_of_here | apply list_elem_of_further]|].
  split.
  { do 6 apply list_elem_of_further. apply elem_of_app. right.
    by repeat first [apply list_elem_of_here | apply list_elem_of_further]. }
  split.
  - intros item Hin.
    repeat (apply elem_of_cons in Hin as [Hin|Hin]; [discriminate Hin|]).
    apply elem_of_app in Hin as [Hin|Hin].
    + apply list_elem_of_join in Hin as (block & Hin & Hblock).
      apply list_elem_of_fmap in Hblock as (i & -> & _).
      unfold iteration_lines in Hin. destruct (i =? 1); simpl in Hin;
        repeat (apply elem_of_cons in Hin as [Hin|Hin]; [discriminate Hin|]);
        by apply elem_of_nil in Hin.
    + repeat (apply elem_of_cons in Hin as [Hin|Hin]; [discriminate Hin|]).
      apply list_elem_of_join in Hin as (block & Hin & Hblock).
      apply list_elem_of_fmap in Hblock as (message & -> & _).
      unfold speaker_line in Hin. destruct (message !! "name"); simpl in Hin;
        [|by apply elem_of_nil in Hin].
      destruct (negb _); simpl in Hin; [|by apply elem_of_nil in Hin].
      apply elem_of_cons in Hin as [Hin|Hin]; [discriminate Hin|].
      by apply elem_of_nil in Hin.
  - rewrite List.filter_app, length_app. simpl.
    rewrite (count_headers_join (λ i, (iteration_lines fc i).1) _ 1),
      (count_headers_join (λ message, (speaker_line message).1) _ 0).
    + rewrite length_seqZ. lia.
    + intros message. unfold speaker_line. destruct (message !! "name"); [|done].
      by destruct (negb _).
    + intros i. unfold iteration_lines. by destruct (i =? 1).
Qed.

Lemma summary_of_finalized_witness :
  let fc := run (scenario_B_calls ++ [FinalizeAnalysis "Findings" "Final text"])
              shared_context in
  (fc !! "final_analysis" =
     Some (VDict [("title", VStr "Findings"); ("content", VStr "Final text")]) ∧
   fc !! "current_iteration" = Some (VInt 3)) ∧
  (summary fc []).2 = inr tt ∧
  [Text "Title: "; Shown (VStr "Findings")] ∈ (summary fc []).1 ∧
  [Text "Word Count: "; Shown VNone] ∈ (summary fc []).1 ∧
  [Shown (VStr "Final text")] ∈ (summary fc []).1 ∧
  (∀ item, [Text "- "; Shown item] ∉ (summary fc []).1) ∧
  length (List.filter is_iteration_header (summary fc []).1) = Z.to_nat 3.
Proof.
  intros fc.
  assert (fc !! "final_analysis" =
            Some (VDict [("title", VStr "Findings"); ("content", VStr "Final text")]))
    as Hfinal by (vm_compute; reflexivity).
  assert (fc !! "current_iteration" = Some (VInt 3)) as Hiter
    by (vm_compute; reflexivity).
  split; [split; [exact Hfinal | exact Hiter]|].
  exact (summary_of_finalized fc [] "Findings" "Final text" 3 Hfinal Hiter).
Defined.

(** A finalized context without [current_iteration]: the summary prints
    its first six lines, the iterations as [None], and raises [TypeError]
    on the bound of the loop. *)
Theorem summary_without_iteration fc chat_history title content :
  fc !! "final_analysis" = Some (VDict [("title", VStr title); ("content", VStr content)]) →
  fc !! "current_iteration" = None →
  summary fc chat_history =
    ([[Text "Analysis completed successfully!"];
      header "ANALYSIS SUMMARY";
      [Text "Title: "; Shown (VStr title)];
      [Text "Word Count: "; Shown VNone];
      [Text "Iterations: "; Shown VNone];
      header "FEEDBACK LOOP PROGRESSION"],
     inl (Exn TypeError)).
Proof.
  intros Hfinal Hiter. unfold summary, ctx_get. by rewrite Hfinal, Hiter.
Qed.

Lemma summary_without_iteration_witness :
  let fc := (finalize_analysis "Findings" "Final text" ∅).1 in
  (fc !! "final_analysis" =
     Some (VDict [("title", VStr "Findings"); ("content", VStr "Final text")]) ∧
   fc !! "current_iteration" = None) ∧
  summary fc [] =
    ([[Text "Analysis completed successfully!"];
      header "ANALYSIS SUMMARY";
      [Text "Title: "; Shown (VStr "Findings")];
      [Text "Word Count: "; Shown VNone];
      [Text "Iterations: "; Shown VNone];
      header "FEEDBACK LOOP PROGRESSION"],
     inl (Exn TypeError)).
Proof.
  intros fc. split; [split; reflexivity|].
  apply (summary_without_iteration fc [] "Findings" "Final text"); reflexivity.
Defined.


(** ** The hand-offs follow the stage *)

(** After a tool function has returned, the hand-offs registered for the
    agent that called it lead to the next stage of the loop: drafting after
    ingestion, review after a draft, revision after feedback, review again
    or finalization after a revision, recording after finalization, and back
    to the user after the report is written. *)
Theorem hand_offs_follow_stage op (c c' : Ctx) r b i m :
  iteration_needed_is c b → iteration_is c i → max_iterations_is c m →
  call op c = (c', inr r) →
  next_executor r (hand_offs (caller op)) c' =
    Some match op with
         | ReadData _ => ToAgent drafting_agent
         | SubmitAnalysisDraft _ _ => ToAgent review_agent
         | SubmitFeedback _ _ _ _ => ToAgent revision_agent
         | SubmitRevisedAnalysis _ _ _ =>
             ToAgent (if b && (i <? m) then review_agent else finalization_agent)
         | FinalizeAnalysis _ _ => ToAgent report_recorder_agent
         | WriteReportToFile _ _ _ => REVERT_TO_USER
         end.
Proof.
  intros Hb Hi Hm Hcall. destruct op; simpl in Hcall.
  - rewrite read_data_unfold in Hcall.
    destruct (read_text os "data/transcripts.md"); [discriminate Hcall|].
    destruct (read_text os "data/objectives.md"); [discriminate Hcall|].
    simpl in Hcall. simplify_eq. unfold next_executor. simpl. by simplify_map_eq.
  - unfold submit_analysis_draft in Hcall. revert Hcall. exec. intros Hcall.
    simplify_eq. unfold next_executor. simpl. by simplify_map_eq.
  - unfold submit_feedback in Hcall. revert Hcall. exec. intros Hcall.
    simplify_eq. unfold next_executor. simpl. by simplify_map_eq.
  - destruct (revision_hand_off title content changes_made c b i m Hb Hi Hm)
      as (r' & Hr' & Hnext).
    rewrite Hr' in Hcall. by simplify_eq.
  - unfold finalize_analysis in Hcall. revert Hcall. exec. intros Hcall.
    by simplify_eq.
  - unfold lift in Hcall. simplify_eq.
    unfold write_report_to_file in H0.
    destruct (if path_exists os _ then _ else _); [discriminate H0|].
    destruct (write_text os _ report); [discriminate H0|]. by simplify_eq.
Qed.

Lemma hand_offs_follow_stage_witness :
  let op := ReadData (os_with_data "transcripts" "objectives") in
  let c' := (call op shared_context).1 in
  ∃ r,
    (iteration_needed_is shared_context true ∧ iteration_is shared_context 0 ∧
     max_iterations_is shared_context 3 ∧ call op shared_context = (c', inr r)) ∧
    next_executor r (hand_offs (caller op)) c' = Some (ToAgent drafting_agent).
Proof.
  intros op c'.
  destruct (call op shared_context) as [c0 [e|r]] eqn:Hcall; [discriminate Hcall|].
  exists r.
  assert (call op shared_context = (c', inr r)) as Hcall' by exact Hcall.
  split; [repeat split; first [reflexivity | exact Hcall']|].
  exact (hand_offs_follow_stage op shared_context c' r true 0 3
           eq_refl eq_refl eq_refl Hcall').
Defined.
